(** * mdt-genai: the two command-line scripts [src/chatgpt.py] and
    [src/gemini.py], embedded as state-passing programs.

    Both scripts are control flow around calls to a hosted provider.  A
    program is a function from the state of the outside world (provider,
    file system) to an outcome, the new state of the world and the list of
    externally visible calls it made, in order.  The provider is a record of
    answer functions: every remote call may return a value or raise. *)

From Stdlib Require Import String Ascii List ZArith Bool Arith Lia.
Import ListNotations.
Open Scope string_scope.

(** ** Python values *)

(** Exceptions.  [PyError] stands for the instances of [Exception] (what
    [except Exception] catches); [SystemExit] and [KeyboardInterrupt] derive
    from [BaseException] only. *)
Inductive exn : Type :=
| SystemExit (code : Z)
| KeyboardInterrupt
| PyError (cls msg : string).

Definition is_Exception (e : exn) : bool :=
  match e with
  | PyError _ _ => true
  | _ => false
  end.

(** [str(e)], as an f-string prints it. *)
Definition str_exn (e : exn) : string :=
  match e with
  | SystemExit _ => ""
  | KeyboardInterrupt => ""
  | PyError _ msg => msg
  end.

(** What a call into a library or a provider answers. *)
Inductive result (A : Type) : Type :=
| Ok (a : A)
| Err (e : exn).
Arguments Ok {A} a.
Arguments Err {A} e.

(** How a program ends: with a value, with an exception that unwinds, or
    not yet ([Running]: the polling loop is still going when the fuel given
    to the model is used up). *)
Inductive outcome (A : Type) : Type :=
| Done (a : A)
| Raised (e : exn)
| Running.
Arguments Done {A} a.
Arguments Raised {A} e.
Arguments Running {A}.

Definition nl : string := String (ascii_of_nat 10) "".

(** ["=" * 50] *)
Fixpoint str_repeat (s : string) (n : nat) : string :=
  match n with
  | O => ""
  | S k => s ++ str_repeat s k
  end.

(** [s.endswith(suf)] *)
Definition endswith (s suf : string) : bool :=
  (String.length suf <=? String.length s)%nat &&
  (substring (String.length s - String.length suf) (String.length suf) s =? suf).

(** [x in l] for a list of strings. *)
Definition str_in (x : string) (l : list string) : bool :=
  existsb (String.eqb x) l.

(** Truthiness of an optional string: [None] and [""] are false. *)
Definition truthy (o : option string) : bool :=
  match o with
  | Some s => negb (s =? "")
  | None => false
  end.

(** ** Externally visible calls *)

Inductive event : Type :=
| Print (s : string)
| Sleep (secs : Z)
(* OpenAI client *)
| FilesCreate (path purpose : string)
| AssistantsCreate (name instructions model : string) (tools : list string)
| ThreadsCreate
| MessagesCreate (thread role content : string) (attached : list string)
| RunsCreate (thread assistant : string)
| RunsRetrieve (thread run : string)
| MessagesList (thread : string)
| FilesDelete (file : string)
| AssistantsDelete (assistant : string)
(* google.generativeai *)
| ListModels
| UploadFile (path mime : string)
| GenerateContent (model prompt : string) (file : option string)
| DeleteFile (name : string).

Definition trace : Type := list event.

(** Concatenation of traces ([++] is kept for strings). *)
Notation "t1 +++ t2" := (@app event t1 t2) (at level 60, right associativity).

(** The calls that go over the network: everything but console output and
    sleeping. *)
Definition is_network (ev : event) : bool :=
  match ev with
  | Print _ | Sleep _ => false
  | _ => true
  end.

Definition network_calls (t : trace) : trace := filter is_network t.

(** The calls that release a remote resource. *)
Definition is_release (ev : event) : bool :=
  match ev with
  | FilesDelete _ | AssistantsDelete _ | DeleteFile _ => true
  | _ => false
  end.

Definition releases (t : trace) : trace := filter is_release t.

Definition is_fetch (ev : event) : bool :=
  match ev with
  | RunsRetrieve _ _ => true
  | _ => false
  end.

(** Number of status fetches in a trace. *)
Definition fetches (t : trace) : nat := List.length (filter is_fetch t).

(** The calls that keep every remote resource. *)
Definition keeps (ev : event) : bool := negb (is_release ev).

(** The prompt a call submits, if it submits one. *)
Definition prompt_of (ev : event) : option string :=
  match ev with
  | MessagesCreate _ _ content _ => Some content
  | GenerateContent _ prompt _ => Some prompt
  | _ => None
  end.

(** The prompts submitted along a trace, in order. *)
Fixpoint prompts_sent (t : trace) : list string :=
  match t with
  | [] => []
  | ev :: rest =>
      match prompt_of ev with
      | Some p => p :: prompts_sent rest
      | None => prompts_sent rest
      end
  end.

(** The calls that submit no prompt. *)
Definition no_prompt (ev : event) : bool :=
  match prompt_of ev with
  | Some _ => false
  | None => true
  end.

(** The calls of [run_thread]. *)
Definition run_thread_event (ev : event) : bool :=
  match ev with
  | Print _ | Sleep _ | RunsCreate _ _ | RunsRetrieve _ _ | MessagesList _ => true
  | _ => false
  end.

(** The calls of the model resolver. *)
Definition resolver_event (ev : event) : bool :=
  match ev with
  | Print _ | ListModels => true
  | _ => false
  end.

(** The seconds slept along a trace. *)
Fixpoint slept (t : trace) : Z :=
  match t with
  | [] => 0
  | Sleep secs :: rest => secs + slept rest
  | _ :: rest => slept rest
  end.

(** The steps of the protocol: the network calls other than the status
    fetches. *)
Definition is_step (ev : event) : bool := is_network ev && negb (is_fetch ev).

Definition steps (t : trace) : trace := filter is_step t.

(** The calls of the loop of [run_thread]. *)
Definition poll_event (ev : event) : bool :=
  match ev with
  | Print _ | Sleep _ | RunsRetrieve _ _ => true
  | _ => false
  end.

(** ** Programs *)

Definition M (W A : Type) : Type := W -> outcome A * W * trace.

Definition ret {W A : Type} (a : A) : M W A := fun w => (Done a, w, []).

Definition raise {W A : Type} (e : exn) : M W A := fun w => (Raised e, w, []).

Definition out_of_fuel {W A : Type} : M W A := fun w => (Running, w, []).

Definition bind {W A B : Type} (m : M W A) (f : A -> M W B) : M W B :=
  fun w =>
    let '(o, w1, t1) := m w in
    match o with
    | Done a => let '(o2, w2, t2) := f a w1 in (o2, w2, t1 +++ t2)
    | Raised e => (Raised e, w1, t1)
    | Running => (Running, w1, t1)
    end.

Notation "x <- m ;; k" := (bind m (fun x => k))
  (at level 61, m at next level, right associativity).
Notation "m ;; k" := (bind m (fun _ => k))
  (at level 61, right associativity).

(** A call that changes the world: the event is recorded whether the call
    returns or raises. *)
Definition call {W A : Type} (ev : event) (f : W -> result A * W) : M W A :=
  fun w =>
    let '(r, w1) := f w in
    match r with
    | Ok a => (Done a, w1, [ev])
    | Err e => (Raised e, w1, [ev])
    end.

(** A local library call that only reads the world. *)
Definition query {W A : Type} (f : W -> result A) : M W A :=
  fun w =>
    match f w with
    | Ok a => (Done a, w, [])
    | Err e => (Raised e, w, [])
    end.

(** A local library call that reads the world and does not raise. *)
Definition read {W A : Type} (f : W -> A) : M W A :=
  fun w => (Done (f w), w, []).

(** A pure computation that may raise ([str.format], indexing). *)
Definition lift {W A : Type} (r : result A) : M W A :=
  fun w =>
    match r with
    | Ok a => (Done a, w, [])
    | Err e => (Raised e, w, [])
    end.

Definition print {W : Type} (s : string) : M W unit :=
  fun w => (Done tt, w, [Print s]).

(** [sys.exit(code)] *)
Definition sys_exit {W A : Type} (code : Z) : M W A := raise (SystemExit code).

(** [try: body finally: handler].  The handler runs when the body returned
    or raised; an exception of the handler replaces the pending one.  A body
    that is still running has not reached the handler. *)
Definition try_finally {W A : Type} (body : M W A) (handler : M W unit) : M W A :=
  fun w =>
    let '(o, w1, t1) := body w in
    match o with
    | Running => (Running, w1, t1)
    | Done a =>
        let '(o2, w2, t2) := handler w1 in
        match o2 with
        | Done _ => (Done a, w2, t1 +++ t2)
        | Raised e2 => (Raised e2, w2, t1 +++ t2)
        | Running => (Running, w2, t1 +++ t2)
        end
    | Raised e =>
        let '(o2, w2, t2) := handler w1 in
        match o2 with
        | Done _ => (Raised e, w2, t1 +++ t2)
        | Raised e2 => (Raised e2, w2, t1 +++ t2)
        | Running => (Running, w2, t1 +++ t2)
        end
    end.

(** [try: body except Exception as e: handler e].  Only instances of
    [Exception] are caught. *)
Definition try_except {W A : Type} (body : M W A) (handler : exn -> M W A) : M W A :=
  fun w =>
    let '(o, w1, t1) := body w in
    match o with
    | Raised e =>
        if is_Exception e
        then let '(o2, w2, t2) := handler e w1 in (o2, w2, t1 +++ t2)
        else (Raised e, w1, t1)
    | _ => (o, w1, t1)
    end.

(** [emits S m]: every call [m] makes satisfies [S]. *)
Definition emits {W A : Type} (S : event -> bool) (m : M W A) : Prop :=
  forall w o w1 t, m w = (o, w1, t) -> forallb S t = true.

(** What one evaluation task submits: the template filled with the
    transcript it was given, once, unless it stopped before submitting
    (then it did not return). *)
Definition submits {W : Type} (task : string -> M W string)
    (filled : string -> result string) : Prop :=
  forall transcript w o w1 t,
    task transcript w = (o, w1, t) ->
    (exists p, filled transcript = Ok p /\ prompts_sent t = [p]) \/
    (prompts_sent t = [] /\ forall v, o <> Done v).

(** [sends task filled stopped]: an evaluation task given a transcript
    either fails to fill its template and submits nothing, or submits the
    filled template, once, unless it was stopped before the submission in
    the world it started in (the only way not to submit). *)
Definition sends {W : Type} (task : string -> M W string)
    (filled : string -> result string) (stopped : W -> exn -> Prop) : Prop :=
  forall transcript w o w1 t,
    task transcript w = (o, w1, t) ->
    (forall e, filled transcript = Err e -> o = Raised e /\ prompts_sent t = []) /\
    (forall p, filled transcript = Ok p ->
       prompts_sent t = [p] \/
       exists e, stopped w e /\ o = Raised e /\ prompts_sent t = []).

(** ** The prompt templates

    [prompts.py] is not part of the sources at hand: the three templates
    and the behaviour of [template.format(transcript=...)] on them are
    parameters of both scripts. *)
Record Prompts : Type := {
  PROMPT_GENERATE_MDT : string;
  PROMPT_FACTUAL_CORRECTNESS : string;
  PROMPT_PLAUSIBILITY : string;
  format_transcript : string -> string -> result string
}.

Definition separator : string := nl ++ str_repeat "=" 50 ++ nl.

(** * src/chatgpt.py: the Assistant path *)

Module ChatGPT.

(** The objects the OpenAI client hands back, with the fields the script
    reads. *)
Record FileObject : Type := { file_id : string }.
Record Assistant : Type := { assistant_id : string }.
Record Thread : Type := { thread_id : string }.
Record Run : Type := { run_id : string; status : string }.

(** A content block of a message: only a text block has [.text]. *)
Inductive ContentBlock : Type :=
| TextContentBlock (value : string)
| ImageFileContentBlock (image : string).

Record Message : Type := { content : list ContentBlock }.

(** The collaborators of the script: the file system, the clock and the
    module-level [client].  [W] is the state of the outside world. *)
Record provider (W : Type) : Type := {
  path_exists : string -> W -> bool;
  open_rb : string -> W -> result unit;
  files_create : string -> string -> W -> result FileObject * W;
  assistants_create :
    string -> string -> string -> list string -> W -> result Assistant * W;
  threads_create : W -> result Thread * W;
  messages_create :
    string -> string -> string -> list string -> W -> result unit * W;
  runs_create : string -> string -> W -> result Run * W;
  runs_retrieve : string -> string -> W -> result Run * W;
  sleep : Z -> W -> W;
  messages_list : string -> W -> result (list Message) * W;
  files_delete : string -> W -> result unit * W;
  assistants_delete : string -> W -> result unit * W
}.
Arguments path_exists {W} p _ _.
Arguments open_rb {W} p _ _.
Arguments files_create {W} p _ _ _.
Arguments assistants_create {W} p _ _ _ _ _.
Arguments threads_create {W} p _.
Arguments messages_create {W} p _ _ _ _ _.
Arguments runs_create {W} p _ _ _.
Arguments runs_retrieve {W} p _ _ _.
Arguments sleep {W} p _ _.
Arguments messages_list {W} p _ _.
Arguments files_delete {W} p _ _.
Arguments assistants_delete {W} p _ _.

(** [messages.data[0].content[0].text.value] *)
Definition latest_text (messages : list Message) : result string :=
  match messages with
  | [] => Err (PyError "IndexError" "list index out of range")
  | m :: _ =>
      match content m with
      | [] => Err (PyError "IndexError" "list index out of range")
      | TextContentBlock value :: _ => Ok value
      | ImageFileContentBlock _ :: _ =>
          Err (PyError "AttributeError" "'ImageFileContentBlock' object has no attribute 'text'")
      end
  end.

(** The statuses on which the loop of [run_thread] exits the process. *)
Definition fatal_statuses : list string := ["failed"; "cancelled"; "expired"].

(** The statuses on which the loop of [run_thread] stops. *)
Definition is_terminal (s : string) : bool :=
  (s =? "completed") || str_in s fatal_statuses.

Section Script.

Context {W : Type} (P : provider W) (T : Prompts).

(** [time.sleep(secs)] *)
Definition time_sleep (secs : Z) : M W unit :=
  fun w => (Done tt, sleep P secs w, [Sleep secs]).

(** chatgpt.py, lines 15-24. *)
Definition upload_file (file_path : string) : M W FileObject :=
  found <- read (path_exists P file_path) ;;
  if negb found
  then print ("Error: File not found at " ++ file_path) ;; sys_exit 1
  else
    print ("Uploading file: " ++ file_path ++ "...") ;;
    query (open_rb P file_path) ;;
    file <- call (FilesCreate file_path "assistants")
                 (files_create P file_path "assistants") ;;
    print ("File uploaded. ID: " ++ file_id file) ;;
    ret file.

(** chatgpt.py, lines 27-37. *)
Definition create_assistant : M W Assistant :=
  let name := "MDT Generator & Evaluator" in
  let instructions :=
    "You are a helpful medical AI assistant capable of analyzing case studies and generating transcripts." in
  print "Creating Assistant..." ;;
  assistant <- call (AssistantsCreate name instructions "gpt-4o" ["file_search"])
                    (assistants_create P name instructions "gpt-4o" ["file_search"]) ;;
  print ("Assistant created. ID: " ++ assistant_id assistant) ;;
  ret assistant.

(** The [while True] loop of [run_thread] (lines 47-57); [fuel] bounds the
    number of iterations the model follows. *)
Fixpoint poll (fuel : nat) (thread run : string) : M W unit :=
  match fuel with
  | O => out_of_fuel
  | S fuel' =>
      run_status <- call (RunsRetrieve thread run) (runs_retrieve P thread run) ;;
      if status run_status =? "completed"
      then print "Run completed."
      else if str_in (status run_status) fatal_statuses
      then print ("Run failed with status: " ++ status run_status) ;; sys_exit 1
      else time_sleep 2 ;; poll fuel' thread run
  end.

(** chatgpt.py, lines 40-61. *)
Definition run_thread (fuel : nat) (assistant thread : string) : M W string :=
  run <- call (RunsCreate thread assistant) (runs_create P thread assistant) ;;
  print ("Run started (ID: " ++ run_id run ++ "). Waiting for completion...") ;;
  poll fuel thread (run_id run) ;;
  messages <- call (MessagesList thread) (messages_list P thread) ;;
  lift (latest_text messages).

(** Task 1 of [main] (lines 82-95). *)
Definition task1 (fuel : nat) (file_obj : FileObject) (assistant : Assistant)
    (thread : Thread) : M W string :=
  print (nl ++ "--- Task 1: Generating MDT Transcript ---") ;;
  call (MessagesCreate (thread_id thread) "user" (PROMPT_GENERATE_MDT T)
          [file_id file_obj])
       (messages_create P (thread_id thread) "user" (PROMPT_GENERATE_MDT T)
          [file_id file_obj]) ;;
  transcript <- run_thread fuel (assistant_id assistant) (thread_id thread) ;;
  print (nl ++ "[GENERATED TRANSCRIPT]" ++ nl) ;;
  print transcript ;;
  print separator ;;
  ret transcript.

(** Task 2 of [main] (lines 97-111). *)
Definition task2 (fuel : nat) (assistant : Assistant) (thread : Thread)
    (transcript : string) : M W string :=
  print (nl ++ "--- Task 2: Evaluating Factual Correctness ---") ;;
  formatted_prompt_factual <-
    lift (format_transcript T (PROMPT_FACTUAL_CORRECTNESS T) transcript) ;;
  call (MessagesCreate (thread_id thread) "user" formatted_prompt_factual [])
       (messages_create P (thread_id thread) "user" formatted_prompt_factual []) ;;
  factual_feedback <- run_thread fuel (assistant_id assistant) (thread_id thread) ;;
  print (nl ++ "[FACTUAL CORRECTNESS FEEDBACK]" ++ nl) ;;
  print factual_feedback ;;
  print separator ;;
  ret factual_feedback.

(** Task 3 of [main] (lines 113-127). *)
Definition task3 (fuel : nat) (assistant : Assistant) (thread : Thread)
    (transcript : string) : M W string :=
  print (nl ++ "--- Task 3: Evaluating Plausibility ---") ;;
  formatted_prompt_plausibility <-
    lift (format_transcript T (PROMPT_PLAUSIBILITY T) transcript) ;;
  call (MessagesCreate (thread_id thread) "user" formatted_prompt_plausibility [])
       (messages_create P (thread_id thread) "user" formatted_prompt_plausibility []) ;;
  plausibility_feedback <- run_thread fuel (assistant_id assistant) (thread_id thread) ;;
  print (nl ++ "[PLAUSIBILITY FEEDBACK]" ++ nl) ;;
  print plausibility_feedback ;;
  print separator ;;
  ret plausibility_feedback.

(** The body of the [try] block of [main] (lines 81-127). *)
Definition tasks (fuel : nat) (file_obj : FileObject) (assistant : Assistant)
    (thread : Thread) : M W unit :=
  transcript <- task1 fuel file_obj assistant thread ;;
  task2 fuel assistant thread transcript ;;
  task3 fuel assistant thread transcript ;;
  ret tt.

(** The [finally] block of [main] (lines 129-134). *)
Definition cleanup (file_obj : FileObject) (assistant : Assistant) : M W unit :=
  print "Cleaning up resources..." ;;
  call (FilesDelete (file_id file_obj)) (files_delete P (file_id file_obj)) ;;
  call (AssistantsDelete (assistant_id assistant))
       (assistants_delete P (assistant_id assistant)) ;;
  print "Cleanup complete.".

(** chatgpt.py, lines 64-134; [argv] is [sys.argv]. *)
Definition main (fuel : nat) (argv : list string) : M W unit :=
  if (List.length argv <? 2)%nat
  then print "Usage: python src/chatgpt.py <path_to_pdf>" ;; sys_exit 1
  else
    let pdf_path := nth 1 argv "" in
    file_obj <- upload_file pdf_path ;;
    assistant <- create_assistant ;;
    print "Creating Thread..." ;;
    thread <- call ThreadsCreate (threads_create P) ;;
    try_finally (tasks fuel file_obj assistant thread)
                (cleanup file_obj assistant).

(** *** The status sequence of a run

    What the loop of [run_thread] would fetch if it went on for ever:
    [world_at_fetch n w] is the world at fetch number [n] (from 0) when the
    loop starts in [w] and sleeps 2 seconds after each earlier fetch;
    [fetched n w] is the answer to that fetch. *)
Fixpoint world_at_fetch (thread run : string) (n : nat) (w : W) : W :=
  match n with
  | O => w
  | S k => sleep P 2 (snd (runs_retrieve P thread run (world_at_fetch thread run k w)))
  end.

Definition fetched (thread run : string) (n : nat) (w : W) : result Run :=
  fst (runs_retrieve P thread run (world_at_fetch thread run n w)).

Definition world_after_fetch (thread run : string) (n : nat) (w : W) : W :=
  snd (runs_retrieve P thread run (world_at_fetch thread run n w)).

Definition fetched_status (thread run : string) (n : nat) (w : W) : option string :=
  match fetched thread run n w with
  | Ok r => Some (status r)
  | Err _ => None
  end.

(** The first [n] answers, as statuses ([None] for a fetch that raised). *)
Definition status_sequence (thread run : string) (n : nat) (w : W)
    : list (option string) :=
  map (fun k => fetched_status thread run k w) (seq 0 n).

(** The calls of [n] rounds of the loop that end in a sleep. *)
Fixpoint polling (thread run : string) (n : nat) : trace :=
  match n with
  | O => []
  | S k => RunsRetrieve thread run :: Sleep 2 :: polling thread run k
  end.

End Script.

End ChatGPT.

(** * src/gemini.py: the multimodal path *)

Module Gemini.

(** A model as [genai.list_models()] describes it;
    [supported_generation_methods] is [None] when the attribute is absent
    ([hasattr] is false). *)
Record Model : Type := {
  name : string;
  supported_generation_methods : option (list string)
}.

(** The handle of an uploaded file. *)
Record File : Type := { file_name : string }.

(** A response of [generate_content]; reading [.text] may raise. *)
Record Response : Type := { text : result string }.

(** The collaborators of the script: the file system, [magic],
    [mimetypes] and [genai]. *)
Record provider (W : Type) : Type := {
  path_exists : string -> W -> bool;
  magic_from_file : string -> W -> result (option string);
  guess_type : string -> W -> option string;
  list_models : W -> result (list Model) * W;
  genai_upload_file : string -> string -> W -> result File * W;
  generate_content : string -> string -> option string -> W -> result Response * W;
  delete_file : string -> W -> result unit * W
}.
Arguments path_exists {W} p _ _.
Arguments magic_from_file {W} p _ _.
Arguments guess_type {W} p _ _.
Arguments list_models {W} p _.
Arguments genai_upload_file {W} p _ _ _.
Arguments generate_content {W} p _ _ _ _.
Arguments delete_file {W} p _ _.

Definition priority_suffixes : list string :=
  [ "gemini-2.0-flash";
    "gemini-2.0-flash-lite";
    "gemini-1.5-flash-8b";
    "gemini-1.5-flash";
    "gemini-1.5-pro" ].

Definition default_model : string := "gemini-1.5-flash-8b".

(** The filter of lines 22-27. *)
Definition capable (m : Model) : bool :=
  match supported_generation_methods m with
  | Some methods => str_in "generateContent" methods
  | None => false
  end.

(** The nested loops of lines 36-40: the suffixes outside, the candidates
    inside; the first hit is returned. *)
Fixpoint by_priority (suffixes : list string) (candidates : list Model)
    : option Model :=
  match suffixes with
  | [] => None
  | suf :: rest =>
      match find (fun m => endswith (name m) suf) candidates with
      | Some m => Some m
      | None => by_priority rest candidates
      end
  end.

Section Script.

Context {W : Type} (P : provider W) (T : Prompts).

(** gemini.py, lines 18-49.  The [try] block hands back [Some name] where
    the source returns from inside it, and [None] where control falls
    through to the last line. *)
Definition pick_available_model : M W string :=
  found <-
    try_except
      (available <- call ListModels (list_models P) ;;
       let candidates := filter capable available in
       match by_priority priority_suffixes candidates with
       | Some m =>
           print ("Using Gemini model: " ++ name m) ;;
           ret (Some (name m))
       | None =>
           match candidates with
           | m :: _ =>
               print ("Using fallback Gemini model: " ++ name m) ;;
               ret (Some (name m))
           | [] => ret None
           end
       end)
      (fun e =>
         print ("Warning: could not list models, defaulting to gemini-1.5-flash-8b. Error: "
                ++ str_exn e) ;;
         ret None) ;;
  match found with
  | Some model_name => ret model_name
  | None => ret "gemini-1.5-flash-8b"
  end.

(** gemini.py, lines 52-74. *)
Definition upload_file (file_path : string) : M W File :=
  found <- read (path_exists P file_path) ;;
  if negb found
  then print ("Error: File not found at " ++ file_path) ;; sys_exit 1
  else
    print ("Uploading file: " ++ file_path ++ "...") ;;
    mime_type <- query (magic_from_file P file_path) ;;
    mime_type <- (if negb (truthy mime_type)
                  then read (guess_type P file_path)
                  else ret mime_type) ;;
    mime_type <- (if negb (truthy mime_type)
                  then
                    print ("Could not determine mime type for " ++ file_path
                           ++ ". Defaulting to application/octet-stream.") ;;
                    ret "application/octet-stream"
                  else ret (match mime_type with Some m => m | None => "" end)) ;;
    uploaded_file <- call (UploadFile file_path mime_type)
                          (genai_upload_file P file_path mime_type) ;;
    print ("File uploaded. Name: " ++ file_name uploaded_file) ;;
    ret uploaded_file.

(** gemini.py, lines 77-84. *)
Definition get_model_response (prompt : string) (file_obj : File)
    (model_name : option string) : M W string :=
  print "Generating response from Gemini..." ;;
  model_name <- (if truthy model_name
                 then ret (match model_name with Some m => m | None => "" end)
                 else pick_available_model) ;;
  response <- call (GenerateContent model_name prompt (Some (file_name file_obj)))
                   (generate_content P model_name prompt (Some (file_name file_obj))) ;;
  print "Response received." ;;
  lift (text response).

(** Task 1 of [main] (lines 98-103). *)
Definition task1 (file_obj : File) : M W string :=
  print (nl ++ "--- Task 1: Generating MDT Transcript ---") ;;
  transcript <- get_model_response (PROMPT_GENERATE_MDT T) file_obj None ;;
  print (nl ++ "[GENERATED TRANSCRIPT]" ++ nl) ;;
  print transcript ;;
  print separator ;;
  ret transcript.

(** Task 2 of [main] (lines 105-113). *)
Definition task2 (file_obj : File) (transcript : string) : M W string :=
  print (nl ++ "--- Task 2: Evaluating Factual Correctness ---") ;;
  formatted_prompt_factual <-
    lift (format_transcript T (PROMPT_FACTUAL_CORRECTNESS T) transcript) ;;
  factual_feedback <- get_model_response formatted_prompt_factual file_obj None ;;
  print (nl ++ "[FACTUAL CORRECTNESS FEEDBACK]" ++ nl) ;;
  print factual_feedback ;;
  print separator ;;
  ret factual_feedback.

(** Task 3 of [main] (lines 115-128): the file is not attached. *)
Definition task3 (transcript : string) : M W string :=
  print (nl ++ "--- Task 3: Evaluating Plausibility ---") ;;
  formatted_prompt_plausibility <-
    lift (format_transcript T (PROMPT_PLAUSIBILITY T) transcript) ;;
  model_name <- pick_available_model ;;
  response <- call (GenerateContent model_name formatted_prompt_plausibility None)
                   (generate_content P model_name formatted_prompt_plausibility None) ;;
  plausibility_feedback <- lift (text response) ;;
  print (nl ++ "[PLAUSIBILITY FEEDBACK]" ++ nl) ;;
  print plausibility_feedback ;;
  print separator ;;
  ret plausibility_feedback.

(** The body of the [try] block of [main] (lines 97-128). *)
Definition tasks (file_obj : File) : M W unit :=
  transcript <- task1 file_obj ;;
  task2 file_obj transcript ;;
  task3 transcript ;;
  ret tt.

(** The [finally] block of [main] (lines 130-134). *)
Definition cleanup (file_obj : File) : M W unit :=
  print "Cleaning up resources..." ;;
  call (DeleteFile (file_name file_obj)) (delete_file P (file_name file_obj)) ;;
  print "Cleanup complete.".

(** gemini.py, lines 87-134; [argv] is [sys.argv]. *)
Definition main (argv : list string) : M W unit :=
  if (List.length argv <? 2)%nat
  then print "Usage: python src/gemini.py <path_to_pdf>" ;; sys_exit 1
  else
    let pdf_path := nth 1 argv "" in
    file_obj <- upload_file pdf_path ;;
    try_finally (tasks file_obj) (cleanup file_obj).

End Script.

End Gemini.

(** * Worlds and templates to run the scripts on *)

Module Demo.

(** [template.format(transcript=value)] for templates whose replacement
    fields are plain names (letters, digits and underscores), read one
    character at a time as [str.format] does: [{{] and [}}] are literal
    braces; [{transcript}] is replaced; another name is a [KeyError] whose
    message is the quoted name; [{}] and a field of digits are positions
    in the empty tuple of positional arguments, an [IndexError]; a [{]
    inside a field and a lone brace are [ValueError]s.  Conversions,
    format specifications, attributes, indices and other characters
    inside a field are outside this fragment and reported as such. *)
Inductive scan : Type :=
| Outside
| Opened
| Field (name : string)
| Closing.

Definition is_digit (c : ascii) : bool :=
  let n := nat_of_ascii c in ((48 <=? n) && (n <=? 57))%nat.

Definition in_fragment (c : ascii) : bool :=
  let n := nat_of_ascii c in
  is_digit c || ((65 <=? n) && (n <=? 90))%nat ||
  ((97 <=? n) && (n <=? 122))%nat || (n =? 95)%nat.

Fixpoint all_digits (s : string) : bool :=
  match s with
  | EmptyString => true
  | String c rest => is_digit c && all_digits rest
  end.

(** The decimal numeral of a string of digits: no leading zero. *)
Fixpoint strip_zeros (s : string) : string :=
  match s with
  | String c (String _ _ as rest) => if Ascii.eqb c "0" then strip_zeros rest else s
  | _ => s
  end.

Definition outside_fragment : exn := PyError "NotModelled" "field outside the fragment".

(** The value of the field [name], not empty, with [transcript=value] the
    only argument.  Up to 18 digits fit a C [Py_ssize_t]. *)
Definition field_value (name value : string) : result string :=
  if name =? "transcript" then Ok value
  else if all_digits name
  then if (String.length name <=? 18)%nat
       then Err (PyError "IndexError"
                   ("Replacement index " ++ strip_zeros name ++
                    " out of range for positional args tuple"))
       else Err outside_fragment
  else Err (PyError "KeyError" ("'" ++ name ++ "'")).

Fixpoint format_from (st : scan) (template value : string) : result string :=
  match template with
  | EmptyString =>
      match st with
      | Outside => Ok ""
      | Opened => Err (PyError "ValueError" "Single '{' encountered in format string")
      | Field _ => Err (PyError "ValueError" "expected '}' before end of string")
      | Closing => Err (PyError "ValueError" "Single '}' encountered in format string")
      end
  | String c rest =>
      let emit (s : string) :=
        match format_from Outside rest value with
        | Ok out => Ok (s ++ out)
        | Err e => Err e
        end in
      match st with
      | Outside =>
          if Ascii.eqb c "{" then format_from Opened rest value
          else if Ascii.eqb c "}" then format_from Closing rest value
          else emit (String c "")
      | Opened =>
          if Ascii.eqb c "{" then emit "{"
          else if Ascii.eqb c "}"
          then Err (PyError "IndexError" "Replacement index 0 out of range for positional args tuple")
          else if in_fragment c then format_from (Field (String c "")) rest value
          else Err outside_fragment
      | Field name =>
          if Ascii.eqb c "}"
          then match field_value name value with
               | Ok v => emit v
               | Err e => Err e
               end
          else if Ascii.eqb c "{"
          then Err (PyError "ValueError" "unexpected '{' in field name")
          else if in_fragment c then format_from (Field (name ++ String c "")) rest value
          else Err outside_fragment
      | Closing =>
          if Ascii.eqb c "}" then emit "}"
          else Err (PyError "ValueError" "Single '}' encountered in format string")
      end
  end.

Definition format (template value : string) : result string :=
  format_from Outside template value.

(** The templates of the end-to-end scenario. *)
Definition prompts : Prompts := {|
  PROMPT_GENERATE_MDT := "Generate:";
  PROMPT_FACTUAL_CORRECTNESS := "Check facts: {transcript}";
  PROMPT_PLAUSIBILITY := "Check plausibility: {transcript}";
  format_transcript := format
|}.

Definition text_message (s : string) : ChatGPT.Message :=
  {| ChatGPT.content := [ChatGPT.TextContentBlock s] |}.

(** An OpenAI-side world.  Its state counts the runs created and the
    status fetches of the current run; [statuses k n] is what fetch [n]
    (from 0) of run [k] (from 1) answers, [answers k] the messages listed
    after run [k].  Every local file exists iff [file_exists]; creating the
    assistant answers [assistant]; deleting the file answers [deleted]. *)
Definition openai (file_exists : bool) (assistant : result ChatGPT.Assistant)
    (statuses : nat -> nat -> string) (answers : nat -> list ChatGPT.Message)
    (deleted : result unit) : ChatGPT.provider (nat * nat) := {|
  ChatGPT.path_exists := fun _ _ => file_exists;
  ChatGPT.open_rb := fun _ _ => Ok tt;
  ChatGPT.files_create := fun _ _ w => (Ok {| ChatGPT.file_id := "file-1" |}, w);
  ChatGPT.assistants_create := fun _ _ _ _ w => (assistant, w);
  ChatGPT.threads_create := fun w => (Ok {| ChatGPT.thread_id := "thread-1" |}, w);
  ChatGPT.messages_create := fun _ _ _ _ w => (Ok tt, w);
  ChatGPT.runs_create := fun _ _ w =>
    (Ok {| ChatGPT.run_id := "run"; ChatGPT.status := "queued" |}, (S (fst w), 0));
  ChatGPT.runs_retrieve := fun _ _ w =>
    (Ok {| ChatGPT.run_id := "run"; ChatGPT.status := statuses (fst w) (snd w) |},
     (fst w, S (snd w)));
  ChatGPT.sleep := fun _ w => w;
  ChatGPT.messages_list := fun _ w => (Ok (answers (fst w)), w);
  ChatGPT.files_delete := fun _ w => (deleted, w);
  ChatGPT.assistants_delete := fun _ w => (Ok tt, w)
|}.

Definition asst : ChatGPT.Assistant := {| ChatGPT.assistant_id := "asst-1" |}.

(** Statuses [queued, in_progress, in_progress, completed] for every run. *)
Definition four_statuses (k n : nat) : string :=
  nth n ["queued"; "in_progress"; "in_progress"] "completed".

(** Run [k] answers [Tk]. *)
Definition numbered_answers (k : nat) : list ChatGPT.Message :=
  [text_message (nth k [""; "T1"; "T2"; "T3"] "")].

(** A Gemini-side world.  Its state counts the calls of
    [generate_content]; call [n] (from 0) answers [replies n]. *)
Definition gemini (file_exists : bool) (sniffed : result (option string))
    (guessed : option string) (models : result (list Gemini.Model))
    (replies : nat -> string) : Gemini.provider nat := {|
  Gemini.path_exists := fun _ _ => file_exists;
  Gemini.magic_from_file := fun _ _ => sniffed;
  Gemini.guess_type := fun _ _ => guessed;
  Gemini.list_models := fun w => (models, w);
  Gemini.genai_upload_file := fun _ _ w => (Ok {| Gemini.file_name := "files/1" |}, w);
  Gemini.generate_content := fun _ _ _ w => (Ok {| Gemini.text := Ok (replies w) |}, S w);
  Gemini.delete_file := fun _ w => (Ok tt, w)
|}.

Definition numbered_replies (n : nat) : string :=
  nth n ["T1"; "T2"; "T3"] "".

Definition model (name : string) (methods : list string) : Gemini.Model :=
  {| Gemini.name := name; Gemini.supported_generation_methods := Some methods |}.

End Demo.

(** Worlds in which the provider fails. *)
Module Faults.

(** As [Demo.openai], with a result for every status fetch and every
    listing: [statuses k n] is what fetch [n] of run [k] answers or raises,
    [answers k] what the listing after run [k] answers or raises. *)
Definition openai (statuses : nat -> nat -> result string)
    (answers : nat -> result (list ChatGPT.Message))
    : ChatGPT.provider (nat * nat) := {|
  ChatGPT.path_exists := fun _ _ => true;
  ChatGPT.open_rb := fun _ _ => Ok tt;
  ChatGPT.files_create := fun _ _ w => (Ok {| ChatGPT.file_id := "file-1" |}, w);
  ChatGPT.assistants_create := fun _ _ _ _ w => (Ok Demo.asst, w);
  ChatGPT.threads_create := fun w => (Ok {| ChatGPT.thread_id := "thread-1" |}, w);
  ChatGPT.messages_create := fun _ _ _ _ w => (Ok tt, w);
  ChatGPT.runs_create := fun _ _ w =>
    (Ok {| ChatGPT.run_id := "run"; ChatGPT.status := "queued" |}, (S (fst w), 0));
  ChatGPT.runs_retrieve := fun _ _ w =>
    (match statuses (fst w) (snd w) with
     | Ok s => Ok {| ChatGPT.run_id := "run"; ChatGPT.status := s |}
     | Err e => Err e
     end,
     (fst w, S (snd w)));
  ChatGPT.sleep := fun _ w => w;
  ChatGPT.messages_list := fun _ w => (answers (fst w), w);
  ChatGPT.files_delete := fun _ w => (Ok tt, w);
  ChatGPT.assistants_delete := fun _ w => (Ok tt, w)
|}.

(** As [Demo.gemini] with one model listed, where reading the text of
    response [n] gives [replies n], a text or an error. *)
Definition gemini (replies : nat -> result string) : Gemini.provider nat := {|
  Gemini.path_exists := fun _ _ => true;
  Gemini.magic_from_file := fun _ _ => Ok (Some "application/pdf");
  Gemini.guess_type := fun _ _ => None;
  Gemini.list_models := fun w =>
    (Ok [Demo.model "models/gemini-1.5-pro" ["generateContent"]], w);
  Gemini.genai_upload_file := fun _ _ w => (Ok {| Gemini.file_name := "files/1" |}, w);
  Gemini.generate_content := fun _ _ _ w => (Ok {| Gemini.text := replies w |}, S w);
  Gemini.delete_file := fun _ w => (Ok tt, w)
|}.

End Faults.

(** * Facts about strings *)

Lemma str_length_app (p s : string) :
  String.length (p ++ s) = String.length p + String.length s.
Proof. induction p as [|c p IH]; simpl; [reflexivity | now rewrite IH]. Qed.

Lemma substring_whole (s : string) : substring 0 (String.length s) s = s.
Proof. induction s as [|c s IH]; simpl; [reflexivity | now rewrite IH]. Qed.

Lemma substring_skip (p s : string) (n : nat) :
  substring (String.length p) n (p ++ s) = substring 0 n s.
Proof. induction p as [|c p IH]; simpl; [reflexivity | exact IH]. Qed.

Lemma substring_split (s : string) (k : nat) :
  k <= String.length s ->
  s = substring 0 k s ++ substring k (String.length s - k) s.
Proof.
  revert k; induction s as [|c s IH]; intros k Hk.
  - destruct k; reflexivity.
  - destruct k as [|k]; simpl.
    + now rewrite substring_whole.
    + simpl in Hk; rewrite <- (IH k) by lia; reflexivity.
Qed.

Lemma endswith_spec (s suf : string) :
  endswith s suf = true <-> exists p, s = p ++ suf.
Proof.
  unfold endswith; rewrite andb_true_iff, Nat.leb_le, String.eqb_eq; split.
  - intros [Hlen Hsub].
    exists (substring 0 (String.length s - String.length suf) s).
    rewrite (substring_split s (String.length s - String.length suf)) at 1 by lia.
    replace (String.length s - (String.length s - String.length suf))
      with (String.length suf) by lia.
    now rewrite Hsub.
  - intros [p ->]; rewrite str_length_app; split; [lia|].
    replace (String.length p + String.length suf - String.length suf)
      with (String.length p) by lia.
    rewrite substring_skip; apply substring_whole.
Qed.

(** [latest_text] reads the first content block only: a text block behind
    an image block is not looked for. *)
Lemma latest_text_first_block (image value : string)
    (blocks : list ChatGPT.ContentBlock) (older : list ChatGPT.Message) :
  ChatGPT.latest_text
    ({| ChatGPT.content :=
          ChatGPT.ImageFileContentBlock image
          :: ChatGPT.TextContentBlock value :: blocks |} :: older) =
    Err (PyError "AttributeError" "'ImageFileContentBlock' object has no attribute 'text'").
Proof. reflexivity. Qed.

(** * Facts about the program combinators *)

Lemma filter_polling (f : event -> bool) (thread run : string) (n : nat) :
  f (RunsRetrieve thread run) = false -> f (Sleep 2) = false ->
  filter f (ChatGPT.polling thread run n) = [].
Proof.
  intros Hr Hs; induction n as [|n IH]; simpl; [reflexivity|].
  rewrite Hr, Hs; exact IH.
Qed.

Lemma fetches_polling (thread run : string) (n : nat) :
  fetches (ChatGPT.polling thread run n) = n.
Proof.
  unfold fetches; induction n as [|n IH]; simpl; [reflexivity|].
  now rewrite IH.
Qed.

Lemma fetches_app (t1 t2 : trace) :
  fetches (t1 +++ t2) = fetches t1 + fetches t2.
Proof. unfold fetches; now rewrite filter_app, length_app. Qed.

Lemma polling_snoc (thread run : string) (n : nat) (t : trace) :
  ChatGPT.polling thread run n +++ RunsRetrieve thread run :: Sleep 2 :: t =
  ChatGPT.polling thread run (S n) +++ t.
Proof.
  induction n as [|n IH]; simpl; [reflexivity|].
  simpl in IH; now rewrite IH.
Qed.

(** * The polling loop of [run_thread] *)

Section Polling.

Context {W : Type} (P : ChatGPT.provider W).
Variables thread run : string.

Local Abbreviation poll := (ChatGPT.poll P).
Local Abbreviation at_fetch := (ChatGPT.world_at_fetch P thread run).
Local Abbreviation after_fetch := (ChatGPT.world_after_fetch P thread run).
Local Abbreviation fetched_status := (ChatGPT.fetched_status P thread run).
Local Abbreviation polling := (ChatGPT.polling thread run).

Lemma is_terminal_false (s : string) :
  ChatGPT.is_terminal s = false ->
  (s =? "completed") = false /\ str_in s ChatGPT.fatal_statuses = false.
Proof. unfold ChatGPT.is_terminal; intros H; now apply orb_false_elim in H. Qed.

(** One round on a status that is not terminal. *)
Lemma poll_step (fuel : nat) (w w1 : W) (r : ChatGPT.Run) :
  ChatGPT.runs_retrieve P thread run w = (Ok r, w1) ->
  ChatGPT.is_terminal (ChatGPT.status r) = false ->
  poll (S fuel) thread run w =
    let '(o, w2, t) := poll fuel thread run (ChatGPT.sleep P 2 w1) in
    (o, w2, RunsRetrieve thread run :: Sleep 2 :: t).
Proof.
  intros Hr Ht; apply is_terminal_false in Ht; destruct Ht as [Hc Hf].
  cbn [ChatGPT.poll]; unfold bind at 1, call; rewrite Hr, Hc, Hf.
  unfold bind, ChatGPT.time_sleep.
  destruct (poll fuel thread run (ChatGPT.sleep P 2 w1)) as [[o w2] t].
  reflexivity.
Qed.

(** The last round, on [completed]. *)
Lemma poll_completed (fuel : nat) (w w1 : W) (r : ChatGPT.Run) :
  ChatGPT.runs_retrieve P thread run w = (Ok r, w1) ->
  ChatGPT.status r = "completed" ->
  poll (S fuel) thread run w =
    (Done tt, w1, [RunsRetrieve thread run; Print "Run completed."]).
Proof.
  intros Hr Hs.
  cbn [ChatGPT.poll]; unfold bind, call, print; rewrite Hr, Hs; reflexivity.
Qed.

(** The last round, on a fatal status. *)
Lemma poll_fatal (fuel : nat) (w w1 : W) (r : ChatGPT.Run) :
  ChatGPT.runs_retrieve P thread run w = (Ok r, w1) ->
  str_in (ChatGPT.status r) ChatGPT.fatal_statuses = true ->
  poll (S fuel) thread run w =
    (Raised (SystemExit 1), w1,
     [RunsRetrieve thread run;
      Print ("Run failed with status: " ++ ChatGPT.status r)]).
Proof.
  intros Hr Hs.
  assert (Hc : (ChatGPT.status r =? "completed") = false).
  { destruct (ChatGPT.status r =? "completed") eqn:E; [|reflexivity].
    apply String.eqb_eq in E; rewrite E in Hs; discriminate Hs. }
  cbn [ChatGPT.poll]; unfold bind, call, print, sys_exit, raise.
  rewrite Hr, Hc, Hs; reflexivity.
Qed.

(** [n] rounds on statuses that are not terminal: the loop has fetched and
    slept [n] times and goes on from the world of fetch [n]. *)
Lemma poll_rounds (n fuel : nat) (w : W) :
  (forall k, k < n ->
     exists s, fetched_status k w = Some s /\ ChatGPT.is_terminal s = false) ->
  poll (n + fuel) thread run w =
    let '(o, w2, t) := poll fuel thread run (at_fetch n w) in
    (o, w2, polling n +++ t).
Proof.
  revert fuel; induction n as [|n IH]; intros fuel H.
  - simpl; now destruct (poll fuel thread run w) as [[o w2] t].
  - replace (S n + fuel) with (n + S fuel) by lia.
    rewrite IH by (intros k Hk; apply H; lia).
    destruct (H n (Nat.lt_succ_diag_r n)) as [s [Hs Ht]].
    unfold ChatGPT.fetched_status, ChatGPT.fetched in Hs.
    destruct (ChatGPT.runs_retrieve P thread run (at_fetch n w)) as [r w1] eqn:Hr.
    simpl in Hs; destruct r as [r|e]; [|discriminate Hs].
    injection Hs as Hs; subst s.
    rewrite (poll_step fuel _ _ _ Hr Ht).
    cbn [ChatGPT.world_at_fetch]; rewrite Hr; cbn [snd].
    destruct (poll fuel thread run (ChatGPT.sleep P 2 w1)) as [[o w2] t].
    now rewrite polling_snoc.
Qed.

Lemma world_at_fetch_shift (k : nat) (w : W) :
  at_fetch (S k) w =
  at_fetch k (ChatGPT.sleep P 2 (snd (ChatGPT.runs_retrieve P thread run w))).
Proof.
  induction k as [|k IH]; [reflexivity|].
  change (at_fetch (S (S k)) w)
    with (ChatGPT.sleep P 2
            (snd (ChatGPT.runs_retrieve P thread run (at_fetch (S k) w)))).
  now rewrite IH.
Qed.

(** The loop is left only after a fetch that raised or answered a terminal
    status, all earlier fetches having answered statuses that are not
    terminal. *)
Lemma poll_leaves (fuel : nat) :
  forall (w w1 : W) (o : outcome unit) (t : trace),
    poll fuel thread run w = (o, w1, t) ->
    o <> Running ->
    exists n,
      n < fuel /\
      (forall k, k < n ->
         exists s, fetched_status k w = Some s /\ ChatGPT.is_terminal s = false) /\
      (fetched_status n w = None \/
       exists s, fetched_status n w = Some s /\ ChatGPT.is_terminal s = true).
Proof.
  induction fuel as [|fuel IH]; intros w w1 o t Hp Hn.
  - injection Hp as <- _ _; now elim Hn.
  - destruct (ChatGPT.runs_retrieve P thread run w) as [[r|e] w2] eqn:Hr.
    + destruct (ChatGPT.is_terminal (ChatGPT.status r)) eqn:Ht.
      * exists 0; split; [lia|]; split; [intros k Hk; lia|].
        right; exists (ChatGPT.status r); split; [|exact Ht].
        unfold ChatGPT.fetched_status, ChatGPT.fetched; simpl; now rewrite Hr.
      * rewrite (poll_step fuel w w2 r Hr Ht) in Hp.
        destruct (poll fuel thread run (ChatGPT.sleep P 2 w2))
          as [[o' w'] t'] eqn:E.
        injection Hp as -> _ _.
        destruct (IH _ _ _ _ E Hn) as [n [Hlt [Hbefore Hat]]].
        assert (Hshift : forall k,
                   fetched_status (S k) w =
                   fetched_status k (ChatGPT.sleep P 2 w2)).
        { intros k; unfold ChatGPT.fetched_status, ChatGPT.fetched.
          now rewrite world_at_fetch_shift, Hr. }
        exists (S n); split; [lia|]; split.
        -- intros [|k] Hk.
           ++ exists (ChatGPT.status r); split; [|exact Ht].
              unfold ChatGPT.fetched_status, ChatGPT.fetched; simpl; now rewrite Hr.
           ++ rewrite Hshift; apply Hbefore; lia.
        -- now rewrite Hshift.
    + exists 0; split; [lia|]; split; [intros k Hk; lia|].
      left; unfold ChatGPT.fetched_status, ChatGPT.fetched; simpl; now rewrite Hr.
Qed.

End Polling.

Lemma str_in_In (x : string) (l : list string) :
  str_in x l = true <-> In x l.
Proof.
  unfold str_in; rewrite existsb_exists; split.
  - intros [y [Hy E]]; apply String.eqb_eq in E; now subst.
  - intros H; exists x; split; [exact H | apply String.eqb_refl].
Qed.

Lemma is_terminal_In (s : string) :
  ChatGPT.is_terminal s = false <->
  ~ In s ["completed"; "failed"; "cancelled"; "expired"].
Proof.
  unfold ChatGPT.is_terminal; rewrite orb_false_iff; split.
  - intros [Hc Hf] [E|H].
    + subst s; discriminate Hc.
    + apply str_in_In in H; unfold ChatGPT.fatal_statuses in Hf; congruence.
  - intros H; split.
    + destruct (s =? "completed") eqn:E; [|reflexivity].
      apply String.eqb_eq in E; exfalso; apply H; left; now symmetry.
    + destruct (str_in s ChatGPT.fatal_statuses) eqn:E; [|reflexivity].
      apply str_in_In in E; exfalso; apply H; right; exact E.
Qed.

Section RunThread.

Context {W : Type} (P : ChatGPT.provider W).

(** [run_thread] once the run is created: the loop, then the listing. *)
Lemma run_thread_created (fuel : nat) (assistant thread : string) (w0 w1 : W)
    (run : ChatGPT.Run) :
  ChatGPT.runs_create P thread assistant w0 = (Ok run, w1) ->
  ChatGPT.run_thread P fuel assistant thread w0 =
    let '(o, w2, t) :=
      (ChatGPT.poll P fuel thread (ChatGPT.run_id run) ;;
       messages <- call (MessagesList thread) (ChatGPT.messages_list P thread) ;;
       lift (ChatGPT.latest_text messages)) w1 in
    (o, w2,
     RunsCreate thread assistant
     :: Print ("Run started (ID: " ++ ChatGPT.run_id run ++ "). Waiting for completion...")
     :: t).
Proof.
  intros Hc; unfold ChatGPT.run_thread.
  unfold bind at 1, call at 1; rewrite Hc.
  unfold bind at 1, print at 1.
  destruct (bind _ _ w1) as [[o w2] t]; reflexivity.
Qed.

End RunThread.
Example format_demo :
  Demo.format "Check facts: {transcript}" "T1" = Ok "Check facts: T1" /\
  Demo.format "{{x}} {transcript}{transcript}" "a" = Ok "{x} aa" /\
  Demo.format "{other}" "a" = Err (PyError "KeyError" "'other'") /\
  Demo.format "{0}" "a" =
    Err (PyError "IndexError"
           "Replacement index 0 out of range for positional args tuple") /\
  Demo.format "{007}" "a" =
    Err (PyError "IndexError"
           "Replacement index 7 out of range for positional args tuple") /\
  Demo.format "{}" "a" =
    Err (PyError "IndexError"
           "Replacement index 0 out of range for positional args tuple") /\
  Demo.format "{0a}" "a" = Err (PyError "KeyError" "'0a'") /\
  Demo.format "{a{b}}" "a" =
    Err (PyError "ValueError" "unexpected '{' in field name") /\
  Demo.format "{transcript" "a" =
    Err (PyError "ValueError" "expected '}' before end of string") /\
  Demo.format "a}b" "a" =
    Err (PyError "ValueError" "Single '}' encountered in format string") /\
  Demo.format "a{" "a" =
    Err (PyError "ValueError" "Single '{' encountered in format string").
Proof. repeat split; reflexivity. Qed.

Section RunThreadProperties.

Context {W : Type} (P : ChatGPT.provider W).

Lemma fetched_status_inv (thread run : string) (n : nat) (w : W) (s : string) :
  ChatGPT.fetched_status P thread run n w = Some s ->
  exists r,
    ChatGPT.runs_retrieve P thread run (ChatGPT.world_at_fetch P thread run n w) =
      (Ok r, ChatGPT.world_after_fetch P thread run n w) /\
    ChatGPT.status r = s.
Proof.
  unfold ChatGPT.fetched_status, ChatGPT.fetched, ChatGPT.world_after_fetch.
  destruct (ChatGPT.runs_retrieve P thread run _) as [[r|e] w1]; simpl;
    intros H; [|discriminate H].
  injection H as H; now exists r.
Qed.

(** C3.  A run whose fetched statuses are queued, in_progress,
    in_progress, completed: [run_thread] fetches the status exactly four
    times, sleeps 2 seconds between consecutive fetches, stops, lists the
    messages of the thread and returns the text of the first content block
    of the latest message (a text block). *)
Theorem run_thread_four_fetches :
  forall (fuel : nat) (assistant thread : string) (w0 w1 w2 : W)
         (run : ChatGPT.Run) (latest : ChatGPT.Message)
         (older : list ChatGPT.Message) (value : string)
         (blocks : list ChatGPT.ContentBlock),
    ChatGPT.runs_create P thread assistant w0 = (Ok run, w1) ->
    ChatGPT.status_sequence P thread (ChatGPT.run_id run) 4 w1 =
      [Some "queued"; Some "in_progress"; Some "in_progress"; Some "completed"] ->
    ChatGPT.messages_list P thread
      (ChatGPT.world_after_fetch P thread (ChatGPT.run_id run) 3 w1) =
      (Ok (latest :: older), w2) ->
    ChatGPT.content latest = ChatGPT.TextContentBlock value :: blocks ->
    4 <= fuel ->
    let fetch := RunsRetrieve thread (ChatGPT.run_id run) in
    let t :=
      [ RunsCreate thread assistant;
        Print ("Run started (ID: " ++ ChatGPT.run_id run ++ "). Waiting for completion...");
        fetch; Sleep 2; fetch; Sleep 2; fetch; Sleep 2; fetch;
        Print "Run completed.";
        MessagesList thread ] in
    ChatGPT.run_thread P fuel assistant thread w0 = (Done value, w2, t) /\
    fetches t = 4.
Proof.
  intros fuel assistant thread w0 w1 w2 run latest older value blocks
         Hc Hs Hm Hl Hf fetch t.
  split; [|reflexivity].
  unfold ChatGPT.status_sequence in Hs; simpl in Hs.
  injection Hs as H0 H1 H2 H3.
  rewrite (run_thread_created P fuel _ _ _ _ _ Hc).
  replace fuel with (3 + S (fuel - 4)) by lia.
  unfold bind at 1.
  rewrite (poll_rounds P thread (ChatGPT.run_id run) 3 (S (fuel - 4)) w1).
  - apply fetched_status_inv in H3; destruct H3 as [r [Hr Hst]].
    rewrite (poll_completed P _ _ _ _ _ _ Hr Hst).
    unfold bind, call; rewrite Hm.
    unfold lift, ChatGPT.latest_text; rewrite Hl.
    reflexivity.
  - intros k Hk.
    destruct k as [|[|[|k]]]; [exists "queued" | exists "in_progress"
                               | exists "in_progress" | lia];
      (split; [assumption | reflexivity]).
Qed.

(** C4.  A fatal status (failed, cancelled or expired) at fetch [n], after
    [n] fetches that were not terminal: [run_thread] prints the status and
    exits with code 1 right after that fetch; it has fetched [n + 1] times
    and makes no further call.  With [n = 1] (the second check) that is
    exactly 2 fetches. *)
Theorem run_thread_fatal_status :
  forall (n fuel : nat) (assistant thread : string) (w0 w1 : W)
         (run : ChatGPT.Run) (s : string),
    ChatGPT.runs_create P thread assistant w0 = (Ok run, w1) ->
    (forall k, k < n ->
       exists s',
         ChatGPT.fetched_status P thread (ChatGPT.run_id run) k w1 = Some s' /\
         ~ In s' ["completed"; "failed"; "cancelled"; "expired"]) ->
    ChatGPT.fetched_status P thread (ChatGPT.run_id run) n w1 = Some s ->
    In s ["failed"; "cancelled"; "expired"] ->
    n < fuel ->
    let t :=
      [ RunsCreate thread assistant;
        Print ("Run started (ID: " ++ ChatGPT.run_id run ++ "). Waiting for completion...") ]
      +++ ChatGPT.polling thread (ChatGPT.run_id run) n
      +++ [ RunsRetrieve thread (ChatGPT.run_id run);
            Print ("Run failed with status: " ++ s) ] in
    ChatGPT.run_thread P fuel assistant thread w0 =
      (Raised (SystemExit 1),
       ChatGPT.world_after_fetch P thread (ChatGPT.run_id run) n w1, t) /\
    fetches t = S n.
Proof.
  intros n fuel assistant thread w0 w1 run s Hc Hk Hs Hin Hf t.
  split.
  - rewrite (run_thread_created P fuel _ _ _ _ _ Hc).
    replace fuel with (n + S (fuel - S n)) by lia.
    unfold bind at 1.
    rewrite (poll_rounds P thread (ChatGPT.run_id run) n (S (fuel - S n)) w1).
    + apply fetched_status_inv in Hs; destruct Hs as [r [Hr Hst]].
      assert (Hfat : str_in (ChatGPT.status r) ChatGPT.fatal_statuses = true)
        by (apply str_in_In; rewrite Hst; exact Hin).
      rewrite (poll_fatal P _ _ _ _ _ _ Hr Hfat), Hst.
      reflexivity.
    + intros k Hlt; destruct (Hk k Hlt) as [s' [E Hn]].
      exists s'; split; [exact E | now apply is_terminal_In].
  - unfold t; rewrite !fetches_app, fetches_polling.
    unfold fetches; simpl; lia.
Qed.

(** C7.  A run none of whose fetched statuses is terminal: whatever the
    number of rounds followed, [run_thread] is still in its loop, having
    fetched once per round; there is no bound on the polls and no result. *)
Theorem run_thread_never_returns :
  forall (assistant thread : string) (w0 w1 : W) (run : ChatGPT.Run),
    ChatGPT.runs_create P thread assistant w0 = (Ok run, w1) ->
    (forall n,
       exists s,
         ChatGPT.fetched_status P thread (ChatGPT.run_id run) n w1 = Some s /\
         ~ In s ["completed"; "failed"; "cancelled"; "expired"]) ->
    forall fuel,
      let t :=
        [ RunsCreate thread assistant;
          Print ("Run started (ID: " ++ ChatGPT.run_id run ++ "). Waiting for completion...") ]
        +++ ChatGPT.polling thread (ChatGPT.run_id run) fuel in
      ChatGPT.run_thread P fuel assistant thread w0 =
        (Running, ChatGPT.world_at_fetch P thread (ChatGPT.run_id run) fuel w1, t) /\
      fetches t = fuel.
Proof.
  intros assistant thread w0 w1 run Hc Hall fuel t.
  split.
  - rewrite (run_thread_created P fuel _ _ _ _ _ Hc).
    replace fuel with (fuel + 0) at 1 by lia.
    unfold bind at 1.
    rewrite (poll_rounds P thread (ChatGPT.run_id run) fuel 0 w1).
    + simpl; unfold t; now rewrite app_nil_r.
    + intros k _; destruct (Hall k) as [s [E Hn]].
      exists s; split; [exact E | now apply is_terminal_In].
  - unfold t; rewrite fetches_app, fetches_polling; reflexivity.
Qed.

(** C10.  A fetched status outside completed, failed, cancelled, expired
    (requires_action, incomplete, anything else): the round neither exits
    nor returns; it sleeps 2 seconds and the loop goes on with the next
    fetch. *)
Theorem poll_unrecognised_status :
  forall (fuel : nat) (thread run : string) (w w1 : W) (r : ChatGPT.Run),
    ChatGPT.runs_retrieve P thread run w = (Ok r, w1) ->
    ~ In (ChatGPT.status r) ["completed"; "failed"; "cancelled"; "expired"] ->
    ChatGPT.poll P (S fuel) thread run w =
      let '(o, w2, t) := ChatGPT.poll P fuel thread run (ChatGPT.sleep P 2 w1) in
      (o, w2, RunsRetrieve thread run :: Sleep 2 :: t).
Proof.
  intros fuel thread run w w1 r Hr Hn.
  apply (poll_step P thread run fuel w w1 r Hr).
  now apply is_terminal_In.
Qed.

End RunThreadProperties.

Lemma run_thread_four_fetches_witness :
  let P := Demo.openai true (Ok Demo.asst) Demo.four_statuses
             Demo.numbered_answers (Ok tt) in
  ChatGPT.run_thread P 4 "asst-1" "thread-1" (0, 0) =
    (Done "T1", (1, 4),
     [ RunsCreate "thread-1" "asst-1";
       Print "Run started (ID: run). Waiting for completion...";
       RunsRetrieve "thread-1" "run"; Sleep 2;
       RunsRetrieve "thread-1" "run"; Sleep 2;
       RunsRetrieve "thread-1" "run"; Sleep 2;
       RunsRetrieve "thread-1" "run";
       Print "Run completed.";
       MessagesList "thread-1" ]) /\
  fetches
    [ RunsCreate "thread-1" "asst-1";
      Print "Run started (ID: run). Waiting for completion...";
      RunsRetrieve "thread-1" "run"; Sleep 2;
      RunsRetrieve "thread-1" "run"; Sleep 2;
      RunsRetrieve "thread-1" "run"; Sleep 2;
      RunsRetrieve "thread-1" "run";
      Print "Run completed.";
      MessagesList "thread-1" ] = 4.
Proof.
  intros P.
  apply (run_thread_four_fetches P 4 "asst-1" "thread-1" (0, 0) (1, 0) (1, 4)
           {| ChatGPT.run_id := "run"; ChatGPT.status := "queued" |}
           (Demo.text_message "T1") [] "T1" []);
    reflexivity.
Defined.

(** The status becomes failed on the second check. *)
Lemma run_thread_fatal_status_witness :
  let P := Demo.openai true (Ok Demo.asst)
             (fun _ n => nth n ["in_progress"] "failed")
             Demo.numbered_answers (Ok tt) in
  ChatGPT.run_thread P 2 "asst-1" "thread-1" (0, 0) =
    (Raised (SystemExit 1), (1, 2),
     [ RunsCreate "thread-1" "asst-1";
       Print "Run started (ID: run). Waiting for completion...";
       RunsRetrieve "thread-1" "run"; Sleep 2;
       RunsRetrieve "thread-1" "run";
       Print "Run failed with status: failed" ]) /\
  fetches
    [ RunsCreate "thread-1" "asst-1";
      Print "Run started (ID: run). Waiting for completion...";
      RunsRetrieve "thread-1" "run"; Sleep 2;
      RunsRetrieve "thread-1" "run";
      Print "Run failed with status: failed" ] = 2.
Proof.
  intros P.
  apply (run_thread_fatal_status P 1 2 "asst-1" "thread-1" (0, 0) (1, 0)
           {| ChatGPT.run_id := "run"; ChatGPT.status := "queued" |} "failed").
  - reflexivity.
  - intros k Hk; exists "in_progress"; split.
    + destruct k; [reflexivity | lia].
    + intros [H|[H|[H|[H|[]]]]]; discriminate H.
  - reflexivity.
  - simpl; tauto.
  - lia.
Defined.

(** A run that stays in_progress, followed for 5 rounds. *)
Lemma run_thread_never_returns_witness :
  let P := Demo.openai true (Ok Demo.asst) (fun _ _ => "in_progress")
             Demo.numbered_answers (Ok tt) in
  ChatGPT.run_thread P 5 "asst-1" "thread-1" (0, 0) =
    (Running, (1, 5),
     [ RunsCreate "thread-1" "asst-1";
       Print "Run started (ID: run). Waiting for completion..." ]
     +++ ChatGPT.polling "thread-1" "run" 5) /\
  fetches
    ([ RunsCreate "thread-1" "asst-1";
       Print "Run started (ID: run). Waiting for completion..." ]
     +++ ChatGPT.polling "thread-1" "run" 5) = 5.
Proof.
  intros P.
  refine (run_thread_never_returns P "asst-1" "thread-1" (0, 0) (1, 0)
            {| ChatGPT.run_id := "run"; ChatGPT.status := "queued" |} _ _ 5).
  - reflexivity.
  - intros n; exists "in_progress"; split.
    + reflexivity.
    + intros [H|[H|[H|[H|[]]]]]; discriminate H.
Defined.

(** A status outside the enumeration of the specification. *)
Lemma poll_unrecognised_status_witness :
  let P := Demo.openai true (Ok Demo.asst) (fun _ _ => "requires_action")
             Demo.numbered_answers (Ok tt) in
  ChatGPT.poll P 1 "thread-1" "run" (1, 0) =
    (Running, (1, 1), [RunsRetrieve "thread-1" "run"; Sleep 2]).
Proof.
  intros P.
  apply (poll_unrecognised_status P 0 "thread-1" "run" (1, 0) (1, 1)
           {| ChatGPT.run_id := "run"; ChatGPT.status := "requires_action" |}).
  - reflexivity.
  - intros [H|[H|[H|[H|[]]]]]; discriminate H.
Defined.

(** * The model resolver of gemini.py *)

Lemma find_absent {A : Type} (f : A -> bool) (l : list A) :
  (forall x, In x l -> f x = false) -> find f l = None.
Proof.
  induction l as [|a l IH]; intros H; simpl; [reflexivity|].
  rewrite (H a (or_introl eq_refl)); apply IH.
  intros x Hx; apply H; now right.
Qed.

Lemma find_present {A : Type} (f : A -> bool) (l : list A) :
  (exists x, In x l /\ f x = true) ->
  exists y, find f l = Some y /\ In y l /\ f y = true.
Proof.
  intros [x [Hx Hf]].
  destruct (find f l) as [y|] eqn:E.
  - exists y; split; [reflexivity | now apply find_some in E].
  - rewrite (find_none f l E x Hx) in Hf; discriminate Hf.
Qed.

(** The suffix loop stops at the first suffix that some candidate ends
    with, on the first such candidate. *)
Lemma by_priority_first (suffixes : list string) (candidates : list Gemini.Model) :
  forall (i : nat) (suf : string),
    nth_error suffixes i = Some suf ->
    (exists m, In m candidates /\ endswith (Gemini.name m) suf = true) ->
    (forall j suf', j < i -> nth_error suffixes j = Some suf' ->
       forall m, In m candidates -> endswith (Gemini.name m) suf' = false) ->
    exists m,
      Gemini.by_priority suffixes candidates = Some m /\
      In m candidates /\ endswith (Gemini.name m) suf = true.
Proof.
  induction suffixes as [|s0 rest IH]; intros i suf Hi Hex Hearlier.
  - destruct i; discriminate Hi.
  - destruct i as [|i]; simpl in Hi |- *.
    + injection Hi as ->.
      destruct (find_present (fun m => endswith (Gemini.name m) suf) candidates Hex)
        as [y [Hy [Hin Hend]]].
      rewrite Hy; now exists y.
    + rewrite (find_absent (fun m => endswith (Gemini.name m) s0) candidates).
      * apply (IH i suf Hi Hex).
        intros j suf' Hj Hn; apply (Hearlier (S j) suf'); [lia | exact Hn].
      * intros m Hm; apply (Hearlier 0 s0); [lia | reflexivity | exact Hm].
Qed.

Lemma by_priority_none (suffixes : list string) (candidates : list Gemini.Model) :
  (forall suf m, In suf suffixes -> In m candidates ->
     endswith (Gemini.name m) suf = false) ->
  Gemini.by_priority suffixes candidates = None.
Proof.
  induction suffixes as [|s0 rest IH]; intros H; simpl; [reflexivity|].
  rewrite (find_absent (fun m => endswith (Gemini.name m) s0) candidates).
  - apply IH; intros suf m Hs Hm; apply H; [now right | exact Hm].
  - intros m Hm; apply H; [now left | exact Hm].
Qed.

Lemma by_priority_empty (suffixes : list string) :
  Gemini.by_priority suffixes [] = None.
Proof. induction suffixes as [|s0 rest IH]; simpl; [reflexivity | exact IH]. Qed.

Section Resolver.

Context {W : Type} (P : Gemini.provider W).

(** [pick_available_model] when the listing answers: the choice is a
    function of the candidates. *)
Lemma pick_available_model_listed (w w1 : W) (available : list Gemini.Model) :
  Gemini.list_models P w = (Ok available, w1) ->
  Gemini.pick_available_model P w =
    let candidates := filter Gemini.capable available in
    match Gemini.by_priority Gemini.priority_suffixes candidates with
    | Some m =>
        (Done (Gemini.name m), w1,
         [ListModels; Print ("Using Gemini model: " ++ Gemini.name m)])
    | None =>
        match candidates with
        | m :: _ =>
            (Done (Gemini.name m), w1,
             [ListModels; Print ("Using fallback Gemini model: " ++ Gemini.name m)])
        | [] => (Done "gemini-1.5-flash-8b", w1, [ListModels])
        end
    end.
Proof.
  intros Hl; unfold Gemini.pick_available_model.
  unfold bind at 1, try_except, bind at 1, call; rewrite Hl.
  cbv zeta.
  destruct (Gemini.by_priority _ _) as [m|]; [reflexivity|].
  destruct (filter Gemini.capable available) as [|m rest]; reflexivity.
Qed.

(** C1.  When the listing answers, with [candidates] the capable models
    in provider order: if some candidate ends with a priority suffix, the
    resolver returns the name of a candidate ending with the
    earliest-indexed suffix that any candidate ends with; if no candidate
    ends with any priority suffix and the list is not empty, the name of
    the first candidate; if the list is empty, "gemini-1.5-flash-8b". *)
Theorem pick_available_model_priority :
  forall (w w1 : W) (available : list Gemini.Model),
    Gemini.list_models P w = (Ok available, w1) ->
    let candidates := filter Gemini.capable available in
    exists (model_name : string) (t : trace),
      Gemini.pick_available_model P w = (Done model_name, w1, t) /\
      (forall i suf,
         nth_error Gemini.priority_suffixes i = Some suf ->
         (exists m, In m candidates /\ endswith (Gemini.name m) suf = true) ->
         (forall j suf', j < i ->
            nth_error Gemini.priority_suffixes j = Some suf' ->
            forall m, In m candidates -> endswith (Gemini.name m) suf' = false) ->
         endswith model_name suf = true /\
         exists m, In m candidates /\ Gemini.name m = model_name) /\
      ((forall suf m, In suf Gemini.priority_suffixes -> In m candidates ->
          endswith (Gemini.name m) suf = false) ->
       forall m rest, candidates = m :: rest -> model_name = Gemini.name m) /\
      (candidates = [] -> model_name = "gemini-1.5-flash-8b").
Proof.
  intros w w1 available Hl candidates.
  rewrite (pick_available_model_listed w w1 available Hl).
  fold candidates; cbv zeta.
  destruct (Gemini.by_priority Gemini.priority_suffixes candidates) as [m|] eqn:Eb.
  - eexists; eexists; split; [reflexivity|]; split; [|split].
    + intros i suf Hi Hex Hearlier.
      destruct (by_priority_first _ _ i suf Hi Hex Hearlier) as [m' [E [Hin Hend]]].
      rewrite Eb in E; injection E as <-.
      split; [exact Hend | now exists m].
    + intros Hnone; rewrite (by_priority_none _ _ Hnone) in Eb; discriminate Eb.
    + intros He; rewrite He, by_priority_empty in Eb; discriminate Eb.
  - destruct candidates as [|m rest] eqn:Ec.
    + eexists; eexists; split; [reflexivity|]; split; [|split].
      * intros i suf _ [m [[] _]].
      * intros _ m rest E; discriminate E.
      * reflexivity.
    + eexists; eexists; split; [reflexivity|]; split; [|split].
      * intros i suf Hi Hex Hearlier.
        destruct (by_priority_first _ _ i suf Hi Hex Hearlier) as [m' [E _]].
        rewrite Eb in E; discriminate E.
      * intros _ m' rest' E; now injection E as -> _.
      * intros E; discriminate E.
Qed.

(** C5.  When listing the models raises an error (an instance of
    [Exception]), the resolver prints a warning and returns
    "gemini-1.5-flash-8b"; the error does not propagate. *)
Theorem pick_available_model_listing_fails :
  forall (w w1 : W) (e : exn),
    Gemini.list_models P w = (Err e, w1) ->
    is_Exception e = true ->
    Gemini.pick_available_model P w =
      (Done "gemini-1.5-flash-8b", w1,
       [ ListModels;
         Print ("Warning: could not list models, defaulting to gemini-1.5-flash-8b. Error: "
                ++ str_exn e) ]).
Proof.
  intros w w1 e Hl He; unfold Gemini.pick_available_model.
  unfold bind at 1, try_except, bind at 1, call; rewrite Hl, He.
  reflexivity.
Qed.

End Resolver.

(** The preferred model is listed last, after a capable model of lower
    priority and a model that cannot generate content. *)
Lemma pick_available_model_priority_witness :
  let models :=
    [ Demo.model "models/gemini-1.5-pro" ["generateContent"; "countTokens"];
      Demo.model "models/gemini-2.0-flash-exp" ["embedContent"];
      Demo.model "models/gemini-2.0-flash" ["generateContent"] ] in
  let P := Demo.gemini true (Ok None) None (Ok models) Demo.numbered_replies in
  exists t,
    Gemini.pick_available_model P 0 = (Done "models/gemini-2.0-flash", 0, t).
Proof.
  intros models P.
  destruct (pick_available_model_priority P 0 0 models eq_refl)
    as [model_name [t [Hrun [Hfirst _]]]].
  exists t.
  destruct (Hfirst 0 "gemini-2.0-flash" eq_refl) as [Hend [m [Hin Hname]]].
  - exists (Demo.model "models/gemini-2.0-flash" ["generateContent"]).
    split; [simpl; tauto | reflexivity].
  - intros j suf' Hj; lia.
  - simpl in Hin; destruct Hin as [<-|[<-|[]]]; simpl in Hname; subst model_name.
    + discriminate Hend.
    + exact Hrun.
Defined.

Lemma pick_available_model_listing_fails_witness :
  let P := Demo.gemini true (Ok None) None
             (Err (PyError "ServiceUnavailable" "503")) Demo.numbered_replies in
  Gemini.pick_available_model P 0 =
    (Done "gemini-1.5-flash-8b", 0,
     [ ListModels;
       Print "Warning: could not list models, defaulting to gemini-1.5-flash-8b. Error: 503" ]).
Proof.
  intros P.
  apply (pick_available_model_listing_fails P 0 0 (PyError "ServiceUnavailable" "503"));
    reflexivity.
Defined.

(** * The uploaders *)

(** C8.  In both scripts, for a path that does not exist the uploader
    prints the error message and exits with code 1; it makes no network
    call and leaves the world as it was. *)
Theorem upload_file_missing_path :
  (forall (W : Type) (P : ChatGPT.provider W) (file_path : string) (w : W),
     ChatGPT.path_exists P file_path w = false ->
     exists t,
       ChatGPT.upload_file P file_path w = (Raised (SystemExit 1), w, t) /\
       t = [Print ("Error: File not found at " ++ file_path)] /\
       network_calls t = []) /\
  (forall (W : Type) (P : Gemini.provider W) (file_path : string) (w : W),
     Gemini.path_exists P file_path w = false ->
     exists t,
       Gemini.upload_file P file_path w = (Raised (SystemExit 1), w, t) /\
       t = [Print ("Error: File not found at " ++ file_path)] /\
       network_calls t = []).
Proof.
  split; intros W P file_path w He; eexists; (split; [|split; reflexivity]).
  - unfold ChatGPT.upload_file, bind at 1, read; rewrite He; reflexivity.
  - unfold Gemini.upload_file, bind at 1, read; rewrite He; reflexivity.
Qed.

Lemma upload_file_missing_path_witness :
  ChatGPT.upload_file
    (Demo.openai false (Ok Demo.asst) Demo.four_statuses Demo.numbered_answers (Ok tt))
    "case.pdf" (0, 0) =
    (Raised (SystemExit 1), (0, 0), [Print "Error: File not found at case.pdf"]) /\
  Gemini.upload_file
    (Demo.gemini false (Ok None) None (Ok []) Demo.numbered_replies)
    "case.pdf" 0 =
    (Raised (SystemExit 1), 0, [Print "Error: File not found at case.pdf"]).
Proof.
  split.
  - destruct (proj1 upload_file_missing_path _
                (Demo.openai false (Ok Demo.asst) Demo.four_statuses
                   Demo.numbered_answers (Ok tt))
                "case.pdf" (0, 0) eq_refl) as [t [Hrun [Ht _]]].
    rewrite Hrun, Ht; reflexivity.
  - destruct (proj2 upload_file_missing_path _
                (Demo.gemini false (Ok None) None (Ok []) Demo.numbered_replies)
                "case.pdf" 0 eq_refl) as [t [Hrun [Ht _]]].
    rewrite Hrun, Ht; reflexivity.
Defined.

Section GeminiUpload.

Context {W : Type} (P : Gemini.provider W).

(** C9, as the script does it.  For an existing file whose content
    sniffing returns: the type passed to the upload is the sniffed type
    when that is not empty, else the type guessed from the extension when
    that is not empty, else application/octet-stream; a type is always
    produced and the upload is the one network call made. *)
Theorem upload_file_mime_type :
  forall (file_path : string) (w : W) (sniffed : option string),
    Gemini.path_exists P file_path w = true ->
    Gemini.magic_from_file P file_path w = Ok sniffed ->
    let guessed := Gemini.guess_type P file_path w in
    exists (mime : string) (o : outcome Gemini.File) (w1 : W) (t : trace),
      Gemini.upload_file P file_path w = (o, w1, t) /\
      network_calls t = [UploadFile file_path mime] /\
      mime <> "" /\
      (truthy sniffed = true -> sniffed = Some mime) /\
      (truthy sniffed = false -> truthy guessed = true -> guessed = Some mime) /\
      (truthy sniffed = false -> truthy guessed = false ->
       mime = "application/octet-stream").
Proof.
  intros file_path w sniffed He Hm guessed; subst guessed.
  unfold Gemini.upload_file.
  unfold bind at 1, read at 1; rewrite He; cbv beta iota delta [negb].
  cbv beta iota delta [bind print query read]; rewrite Hm.
  cbv beta iota zeta.
  destruct (truthy sniffed) eqn:Es;
    cbv beta iota delta [ret]; rewrite ?Es; cbv beta iota.
  - destruct sniffed as [m|]; [|discriminate Es].
    exists m; cbv beta iota delta [call].
    destruct (Gemini.genai_upload_file P file_path m w) as [[f|e] w1];
      do 3 eexists; (split; [reflexivity|]);
      (split; [reflexivity|]); (split; [|split; [|split]]);
      try reflexivity; try discriminate;
      intros E; subst m; discriminate Es.
  - destruct (truthy (Gemini.guess_type P file_path w)) eqn:Eg;
      cbv beta iota.
    + destruct (Gemini.guess_type P file_path w) as [m|]; [|discriminate Eg].
      exists m; cbv beta iota delta [call].
      destruct (Gemini.genai_upload_file P file_path m w) as [[f|e] w1];
        do 3 eexists; (split; [reflexivity|]);
        (split; [reflexivity|]); (split; [|split; [|split]]);
        try reflexivity; try discriminate;
        intros E; subst m; discriminate Eg.
    + exists "application/octet-stream"; cbv beta iota delta [call].
      destruct (Gemini.genai_upload_file P file_path "application/octet-stream" w)
        as [[f|e] w1];
        do 3 eexists; (split; [reflexivity|]);
        (split; [reflexivity|]); (split; [|split; [|split]]);
        try reflexivity; try discriminate.
Qed.

End GeminiUpload.

Lemma upload_file_mime_type_witness :
  let P := Demo.gemini true (Ok (Some "")) (Some "application/pdf") (Ok [])
             Demo.numbered_replies in
  exists (o : outcome Gemini.File) (w1 : nat) (t : trace),
    Gemini.upload_file P "case.pdf" 0 = (o, w1, t) /\
    network_calls t = [UploadFile "case.pdf" "application/pdf"].
Proof.
  intros P.
  destruct (upload_file_mime_type P "case.pdf" 0 (Some "") eq_refl eq_refl)
    as [mime [o [w1 [t [Hrun [Hnet [_ [_ [Hguess _]]]]]]]]].
  exists o, w1, t; split; [exact Hrun|].
  specialize (Hguess eq_refl eq_refl); injection Hguess as <-.
  exact Hnet.
Defined.

(** The sniffing call raises on a file that exists: no fallback is tried,
    though the extension would have given a type, and no upload is made. *)
Lemma upload_file_sniffing_raises :
  let P := Demo.gemini true (Err (PyError "MagicException" "could not open"))
             (Some "application/pdf") (Ok []) Demo.numbered_replies in
  let run := Gemini.upload_file P "case.pdf" 0 in
  Gemini.path_exists P "case.pdf" 0 = true /\
  Gemini.guess_type P "case.pdf" 0 = Some "application/pdf" /\
  fst (fst run) = Raised (PyError "MagicException" "could not open") /\
  network_calls (snd run) = [].
Proof. repeat split. Qed.

(** * What a program may emit *)

Section Emits.

Context {W : Type} (S : event -> bool).

Lemma emits_ret {A : Type} (a : A) : emits S (@ret W A a).
Proof. intros w o w1 t H; injection H as _ _ <-; reflexivity. Qed.

Lemma emits_raise {A : Type} (e : exn) : emits S (@raise W A e).
Proof. intros w o w1 t H; injection H as _ _ <-; reflexivity. Qed.

Lemma emits_sys_exit {A : Type} (code : Z) : emits S (@sys_exit W A code).
Proof. apply emits_raise. Qed.

Lemma emits_out_of_fuel {A : Type} : emits S (@out_of_fuel W A).
Proof. intros w o w1 t H; injection H as _ _ <-; reflexivity. Qed.

Lemma emits_print (s : string) : S (Print s) = true -> emits S (@print W s).
Proof. intros Hs w o w1 t H; injection H as _ _ <-; simpl; now rewrite Hs. Qed.

Lemma emits_call {A : Type} (ev : event) (f : W -> result A * W) :
  S ev = true -> emits S (call ev f).
Proof.
  intros Hs w o w1 t; unfold call.
  destruct (f w) as [[a|e] w2]; intros H; injection H as _ _ <-;
    simpl; now rewrite Hs.
Qed.

Lemma emits_read {A : Type} (f : W -> A) : emits S (read f).
Proof. intros w o w1 t H; injection H as _ _ <-; reflexivity. Qed.

Lemma emits_query {A : Type} (f : W -> result A) : emits S (query f).
Proof.
  intros w o w1 t; unfold query.
  destruct (f w) as [a|e]; intros H; injection H as _ _ <-; reflexivity.
Qed.

Lemma emits_lift {A : Type} (r : result A) : emits S (@lift W A r).
Proof.
  intros w o w1 t; unfold lift.
  destruct r as [a|e]; intros H; injection H as _ _ <-; reflexivity.
Qed.

Lemma emits_bind {A B : Type} (m : M W A) (k : A -> M W B) :
  emits S m -> (forall a, emits S (k a)) -> emits S (bind m k).
Proof.
  intros Hm Hk w o w2 t; unfold bind.
  destruct (m w) as [[o1 w1] t1] eqn:E1; apply Hm in E1.
  destruct o1 as [a|e|].
  - destruct (k a w1) as [[o2 w3] t2] eqn:E2; apply Hk in E2.
    intros H; injection H as _ _ <-.
    rewrite forallb_app, E1, E2; reflexivity.
  - intros H; injection H as _ _ <-; exact E1.
  - intros H; injection H as _ _ <-; exact E1.
Qed.

Lemma emits_try_finally {A : Type} (body : M W A) (handler : M W unit) :
  emits S body -> emits S handler -> emits S (try_finally body handler).
Proof.
  intros Hb Hh w o w2 t; unfold try_finally.
  destruct (body w) as [[o1 w1] t1] eqn:E1; apply Hb in E1.
  destruct o1 as [a|e|].
  - destruct (handler w1) as [[o2 w3] t2] eqn:E2; apply Hh in E2.
    destruct o2; intros H; injection H as _ _ <-;
      rewrite forallb_app, E1, E2; reflexivity.
  - destruct (handler w1) as [[o2 w3] t2] eqn:E2; apply Hh in E2.
    destruct o2; intros H; injection H as _ _ <-;
      rewrite forallb_app, E1, E2; reflexivity.
  - intros H; injection H as _ _ <-; exact E1.
Qed.

Lemma emits_try_except {A : Type} (body : M W A) (handler : exn -> M W A) :
  emits S body -> (forall e, emits S (handler e)) ->
  emits S (try_except body handler).
Proof.
  intros Hb Hh w o w2 t; unfold try_except.
  destruct (body w) as [[o1 w1] t1] eqn:E1; apply Hb in E1.
  destruct o1 as [a|e|].
  - intros H; injection H as _ _ <-; exact E1.
  - destruct (is_Exception e).
    + destruct (handler e w1) as [[o2 w3] t2] eqn:E2; apply Hh in E2.
      intros H; injection H as _ _ <-.
      rewrite forallb_app, E1, E2; reflexivity.
    + intros H; injection H as _ _ <-; exact E1.
  - intros H; injection H as _ _ <-; exact E1.
Qed.

End Emits.

Lemma emits_weaken {W A : Type} (S S' : event -> bool) (m : M W A) :
  (forall ev, S ev = true -> S' ev = true) -> emits S m -> emits S' m.
Proof.
  intros Hs Hm w o w1 t H; apply Hm in H.
  rewrite forallb_forall in *; intros ev Hev; apply Hs, H, Hev.
Qed.

Lemma filter_none (f S : event -> bool) (t : trace) :
  (forall ev, S ev = true -> f ev = false) ->
  forallb S t = true -> filter f t = [].
Proof.
  intros Hs; induction t as [|ev t IH]; simpl; [reflexivity|].
  intros H; apply andb_prop in H; destruct H as [Hev Ht].
  rewrite (Hs ev Hev); exact (IH Ht).
Qed.

(** One step of a proof that a program emits only calls in [S]. *)
Ltac emits_step :=
  first
    [ apply emits_ret
    | apply emits_sys_exit
    | apply emits_raise
    | apply emits_out_of_fuel
    | apply emits_print; reflexivity
    | apply emits_call; reflexivity
    | apply emits_query
    | apply emits_read
    | apply emits_lift
    | apply emits_bind; [|intros ?]
    | apply emits_try_except; [|intros ?]
    | apply emits_try_finally
    | match goal with
      | |- emits _ (match ?x with _ => _ end) => destruct x
      end ].

Ltac emits_auto := repeat emits_step.

Lemma prompts_sent_app (t1 t2 : trace) :
  prompts_sent (t1 +++ t2) = (prompts_sent t1 ++ prompts_sent t2)%list.
Proof.
  induction t1 as [|ev t1 IH]; simpl; [reflexivity|].
  destruct (prompt_of ev); simpl; now rewrite IH.
Qed.

Lemma prompts_sent_none (t : trace) :
  forallb no_prompt t = true -> prompts_sent t = [].
Proof.
  induction t as [|ev t IH]; simpl; [reflexivity|].
  intros H; apply andb_prop in H; destruct H as [Hev Ht].
  unfold no_prompt in Hev; destruct (prompt_of ev); [discriminate Hev | exact (IH Ht)].
Qed.

Lemma releases_none (t : trace) :
  forallb keeps t = true -> releases t = [].
Proof.
  apply filter_none; intros ev H; unfold keeps in H.
  now destruct (is_release ev).
Qed.

Lemma releases_app (t1 t2 : trace) :
  releases (t1 +++ t2) = releases t1 +++ releases t2.
Proof. apply filter_app. Qed.

Section ChatGPTEmits.

Context {W : Type} (P : ChatGPT.provider W) (T : Prompts).

Lemma emits_time_sleep (S : event -> bool) (secs : Z) :
  S (Sleep secs) = true -> emits S (ChatGPT.time_sleep P secs).
Proof. intros Hs w o w1 t H; injection H as _ _ <-; simpl; now rewrite Hs. Qed.

Lemma emits_poll (fuel : nat) (thread run : string) :
  emits run_thread_event (ChatGPT.poll P fuel thread run).
Proof.
  induction fuel as [|fuel IH]; cbn [ChatGPT.poll]; emits_auto.
  - apply emits_time_sleep; reflexivity.
  - exact IH.
Qed.

Lemma emits_run_thread (S : event -> bool) (fuel : nat) (assistant thread : string) :
  (forall ev, run_thread_event ev = true -> S ev = true) ->
  emits S (ChatGPT.run_thread P fuel assistant thread).
Proof.
  intros Hs; apply (emits_weaken run_thread_event S _ Hs).
  unfold ChatGPT.run_thread; emits_auto; apply emits_poll.
Qed.


Lemma run_thread_no_prompt (ev : event) :
  run_thread_event ev = true -> no_prompt ev = true.
Proof. destruct ev; intros H; try reflexivity; discriminate H. Qed.

Lemma emits_upload_file (file_path : string) :
  emits keeps (ChatGPT.upload_file P file_path).
Proof. unfold ChatGPT.upload_file; emits_auto. Qed.

Lemma emits_create_assistant : emits keeps (ChatGPT.create_assistant P).
Proof. unfold ChatGPT.create_assistant; cbv zeta; emits_auto. Qed.


End ChatGPTEmits.

Section GeminiEmits.

Context {W : Type} (P : Gemini.provider W) (T : Prompts).

Lemma emits_pick_available_model (S : event -> bool) :
  (forall ev, resolver_event ev = true -> S ev = true) ->
  emits S (Gemini.pick_available_model P).
Proof.
  intros Hs; apply (emits_weaken resolver_event S _ Hs).
  unfold Gemini.pick_available_model; emits_auto.
Qed.


Lemma resolver_no_prompt (ev : event) :
  resolver_event ev = true -> no_prompt ev = true.
Proof. destruct ev; intros H; try reflexivity; discriminate H. Qed.

Lemma emits_gemini_upload_file (file_path : string) :
  emits keeps (Gemini.upload_file P file_path).
Proof. unfold Gemini.upload_file; emits_auto. Qed.



End GeminiEmits.

(** * Cleanup *)

Section ChatGPTCleanup.

Context {W : Type} (P : ChatGPT.provider W) (T : Prompts).




End ChatGPTCleanup.

Section GeminiCleanup.

Context {W : Type} (P : Gemini.provider W) (T : Prompts).


End GeminiCleanup.




(** * The prompt chain *)

Section ChatGPTPrompts.

Context {W : Type} (P : ChatGPT.provider W) (T : Prompts).

Lemma run_thread_prompts (fuel : nat) (assistant thread : string) (w w1 : W)
    (o : outcome string) (t : trace) :
  ChatGPT.run_thread P fuel assistant thread w = (o, w1, t) ->
  prompts_sent t = [].
Proof.
  intros H; apply prompts_sent_none.
  exact (emits_run_thread P no_prompt fuel assistant thread
           run_thread_no_prompt _ _ _ _ H).
Qed.

(** Task 2 submits one prompt: the factual-correctness template with the
    transcript it was given. *)
Lemma task2_prompt (fuel : nat) (assistant : ChatGPT.Assistant)
    (thread : ChatGPT.Thread) (transcript : string) (w w1 : W)
    (o : outcome string) (t : trace) :
  ChatGPT.task2 P T fuel assistant thread transcript w = (o, w1, t) ->
  match format_transcript T (PROMPT_FACTUAL_CORRECTNESS T) transcript with
  | Ok p => prompts_sent t = [p]
  | Err _ => prompts_sent t = [] /\ forall v, o <> Done v
  end.
Proof.
  unfold ChatGPT.task2.
  unfold bind at 1, print at 1; unfold bind at 1, lift at 1.
  destruct (format_transcript T _ transcript) as [p|e].
  - unfold bind at 1, call at 1.
    destruct (ChatGPT.messages_create P _ _ _ _ w) as [[u|e] w2].
    + unfold bind at 1.
      destruct (ChatGPT.run_thread P fuel _ _ w2) as [[orun wr] tr] eqn:Er.
      apply run_thread_prompts in Er.
      destruct orun; unfold bind, print, ret;
        intros H; injection H as _ _ <-;
        cbn [app prompts_sent prompt_of];
        rewrite ?prompts_sent_app, Er; reflexivity.
    + intros H; injection H as _ _ <-; reflexivity.
  - intros H; injection H as <- _ <-; split; [reflexivity | discriminate].
Qed.

(** Task 3 submits one prompt: the plausibility template with the
    transcript it was given. *)
Lemma task3_prompt (fuel : nat) (assistant : ChatGPT.Assistant)
    (thread : ChatGPT.Thread) (transcript : string) (w w1 : W)
    (o : outcome string) (t : trace) :
  ChatGPT.task3 P T fuel assistant thread transcript w = (o, w1, t) ->
  match format_transcript T (PROMPT_PLAUSIBILITY T) transcript with
  | Ok p => prompts_sent t = [p]
  | Err _ => prompts_sent t = [] /\ forall v, o <> Done v
  end.
Proof.
  unfold ChatGPT.task3.
  unfold bind at 1, print at 1; unfold bind at 1, lift at 1.
  destruct (format_transcript T _ transcript) as [p|e].
  - unfold bind at 1, call at 1.
    destruct (ChatGPT.messages_create P _ _ _ _ w) as [[u|e] w2].
    + unfold bind at 1.
      destruct (ChatGPT.run_thread P fuel _ _ w2) as [[orun wr] tr] eqn:Er.
      apply run_thread_prompts in Er.
      destruct orun; unfold bind, print, ret;
        intros H; injection H as _ _ <-;
        cbn [app prompts_sent prompt_of];
        rewrite ?prompts_sent_app, Er; reflexivity.
    + intros H; injection H as _ _ <-; reflexivity.
  - intros H; injection H as <- _ <-; split; [reflexivity | discriminate].
Qed.

End ChatGPTPrompts.

(** Three tasks in sequence, the second and the third fed the result of
    the first. *)
Lemma prompt_chain {W : Type} (first : M W string)
    (second third : string -> M W string)
    (filled2 filled3 : string -> result string) :
  submits second filled2 ->
  submits third filled3 ->
  forall (w0 w1 w' : W) (T1 : string) (t1 tr : trace) (o : outcome unit),
    first w0 = (Done T1, w1, t1) ->
    (transcript <- first ;; second transcript ;; third transcript ;; ret tt) w0 =
      (o, w', tr) ->
    exists t23,
      tr = t1 +++ t23 /\
      (forall p, In p (prompts_sent t23) ->
         filled2 T1 = Ok p \/ filled3 T1 = Ok p) /\
      (o = Done tt ->
       exists p2 p3,
         filled2 T1 = Ok p2 /\ filled3 T1 = Ok p3 /\
         prompts_sent t23 = [p2; p3]).
Proof.
  intros H2 H3 w0 w1 w' T1 t1 tr o H1.
  unfold bind at 1; rewrite H1.
  destruct (bind (second T1) _ w1) as [[o23 w23] t23] eqn:E.
  intros H; injection H as -> _ <-.
  exists t23; split; [reflexivity|].
  revert E; unfold bind at 1.
  destruct (second T1 w1) as [[o2 w2] t2] eqn:E2.
  apply H2 in E2.
  destruct o2 as [v2|e2|].
  - unfold bind at 1.
    destruct (third T1 w2) as [[o3 w3] t3] eqn:E3.
    apply H3 in E3.
    destruct E2 as [[p2 [F2 S2]] | [_ N2]]; [|now elim (N2 v2)].
    destruct o3 as [v3|e3|]; unfold ret; intros H; injection H as <- _ <-;
      rewrite ?prompts_sent_app, S2, ?app_nil_r.
    + destruct E3 as [[p3 [F3 S3]] | [_ N3]]; [|now elim (N3 v3)].
      rewrite S3; split.
      * intros p [<-|[<-|[]]]; [now left | now right].
      * intros _; now exists p2, p3.
    + split; [|discriminate].
      destruct E3 as [[p3 [F3 S3]] | [S3 _]]; rewrite S3.
      * intros p [<-|[<-|[]]]; [now left | now right].
      * intros p [<-|[]]; now left.
    + split; [|discriminate].
      destruct E3 as [[p3 [F3 S3]] | [S3 _]]; rewrite S3.
      * intros p [<-|[<-|[]]]; [now left | now right].
      * intros p [<-|[]]; now left.
  - intros H; injection H as <- _ <-; split; [|discriminate].
    destruct E2 as [[p2 [F2 S2]] | [S2 _]]; rewrite S2.
    + intros p [<-|[]]; now left.
    + intros p [].
  - intros H; injection H as <- _ <-; split; [|discriminate].
    destruct E2 as [[p2 [F2 S2]] | [S2 _]]; rewrite S2.
    + intros p [<-|[]]; now left.
    + intros p [].
Qed.

Section ChatGPTChain.

Context {W : Type} (P : ChatGPT.provider W) (T : Prompts).

Lemma task2_submits (fuel : nat) (assistant : ChatGPT.Assistant)
    (thread : ChatGPT.Thread) :
  submits (ChatGPT.task2 P T fuel assistant thread)
          (format_transcript T (PROMPT_FACTUAL_CORRECTNESS T)).
Proof.
  intros transcript w o w1 t H; apply task2_prompt in H.
  destruct (format_transcript T _ transcript) as [p|e];
    [left; now exists p | now right].
Qed.

Lemma task3_submits (fuel : nat) (assistant : ChatGPT.Assistant)
    (thread : ChatGPT.Thread) :
  submits (ChatGPT.task3 P T fuel assistant thread)
          (format_transcript T (PROMPT_PLAUSIBILITY T)).
Proof.
  intros transcript w o w1 t H; apply task3_prompt in H.
  destruct (format_transcript T _ transcript) as [p|e];
    [left; now exists p | now right].
Qed.

End ChatGPTChain.

Section GeminiChain.

Context {W : Type} (P : Gemini.provider W) (T : Prompts).

Lemma pick_available_model_prompts (w w1 : W) (o : outcome string) (t : trace) :
  Gemini.pick_available_model P w = (o, w1, t) -> prompts_sent t = [].
Proof.
  intros H; apply prompts_sent_none.
  exact (emits_pick_available_model P no_prompt resolver_no_prompt _ _ _ _ H).
Qed.

(** [get_model_response] submits the prompt it was given, once, unless the
    resolver stopped it before. *)
Lemma get_model_response_prompt (prompt : string) (file_obj : Gemini.File)
    (model_name : option string) (w w1 : W) (o : outcome string) (t : trace) :
  Gemini.get_model_response P prompt file_obj model_name w = (o, w1, t) ->
  prompts_sent t = [prompt] \/ (prompts_sent t = [] /\ forall v, o <> Done v).
Proof.
  unfold Gemini.get_model_response.
  unfold bind at 1, print at 1; unfold bind at 1.
  match goal with
  | |- context [(if truthy model_name then ?a else ?b) w] =>
      destruct ((if truthy model_name then a else b) w) as [[om wm] tm] eqn:Em
  end.
  assert (Sm : prompts_sent tm = []).
  { destruct (truthy model_name).
    - injection Em as _ _ <-; reflexivity.
    - exact (pick_available_model_prompts _ _ _ _ Em). }
  destruct om as [m|e|].
  - unfold bind at 1, call at 1.
    destruct (Gemini.generate_content P m prompt _ wm) as [[r|e] wg].
    + unfold bind, print, lift; destruct (Gemini.text r) as [v|e];
        intros H; injection H as _ _ <-; left;
        cbn [app prompts_sent prompt_of];
        rewrite prompts_sent_app, Sm; reflexivity.
    + intros H; injection H as _ _ <-; left;
        cbn [app prompts_sent prompt_of];
        rewrite prompts_sent_app, Sm; reflexivity.
  - intros H; injection H as <- _ <-; right; split; [|discriminate].
    cbn [app prompts_sent prompt_of]; rewrite ?app_nil_r; exact Sm.
  - intros H; injection H as <- _ <-; right; split; [|discriminate].
    cbn [app prompts_sent prompt_of]; rewrite ?app_nil_r; exact Sm.
Qed.

Lemma gemini_task2_submits (file_obj : Gemini.File) :
  submits (Gemini.task2 P T file_obj)
          (format_transcript T (PROMPT_FACTUAL_CORRECTNESS T)).
Proof.
  intros transcript w o w1 t; unfold Gemini.task2.
  unfold bind at 1, print at 1; unfold bind at 1, lift at 1.
  destruct (format_transcript T _ transcript) as [p|e].
  - unfold bind at 1.
    destruct (Gemini.get_model_response P p file_obj None w) as [[og wg] tg] eqn:Eg.
    apply get_model_response_prompt in Eg.
    destruct og as [v|e|]; unfold bind, print, ret;
      intros H; injection H as <- _ <-;
      cbn [app prompts_sent prompt_of]; rewrite ?prompts_sent_app;
      cbn [app prompts_sent prompt_of]; rewrite ?app_nil_r.
    + destruct Eg as [Sg | [_ N]]; [|now elim (N v)].
      left; now exists p.
    + destruct Eg as [Sg | [Sg _]];
        [left; now exists p | right; split; [exact Sg | discriminate]].
    + destruct Eg as [Sg | [Sg _]];
        [left; now exists p | right; split; [exact Sg | discriminate]].
  - intros H; injection H as <- _ <-; right; split; [reflexivity | discriminate].
Qed.

Lemma gemini_task3_submits :
  submits (Gemini.task3 P T)
          (format_transcript T (PROMPT_PLAUSIBILITY T)).
Proof.
  intros transcript w o w1 t; unfold Gemini.task3.
  unfold bind at 1, print at 1; unfold bind at 1, lift at 1.
  destruct (format_transcript T _ transcript) as [p|e].
  - unfold bind at 1.
    destruct (Gemini.pick_available_model P w) as [[om wm] tm] eqn:Em.
    apply pick_available_model_prompts in Em.
    destruct om as [m|e|].
    + unfold bind at 1, call at 1.
      destruct (Gemini.generate_content P m p None wm) as [[r|e] wg].
      * unfold bind, print, lift, ret; destruct (Gemini.text r) as [v|e];
          intros H; injection H as _ _ <-; left; exists p;
          (split; [reflexivity|]);
          cbn [app prompts_sent prompt_of];
          rewrite prompts_sent_app, Em; reflexivity.
      * intros H; injection H as _ _ <-; left; exists p;
          (split; [reflexivity|]);
          cbn [app prompts_sent prompt_of];
          rewrite prompts_sent_app, Em; reflexivity.
    + intros H; injection H as <- _ <-; right; split; [|discriminate].
      cbn [app prompts_sent prompt_of]; rewrite ?app_nil_r; exact Em.
    + intros H; injection H as <- _ <-; right; split; [|discriminate].
      cbn [app prompts_sent prompt_of]; rewrite ?app_nil_r; exact Em.
  - intros H; injection H as <- _ <-; right; split; [reflexivity | discriminate].
Qed.

End GeminiChain.

(** Three tasks in sequence, the second and the third fed the result of
    the first: what is submitted after the first, by how far the run
    got. *)
Lemma prompt_chain_sends {W : Type} (first : M W string)
    (second third : string -> M W string)
    (filled2 filled3 : string -> result string)
    (stopped2 stopped3 : W -> exn -> Prop) :
  sends second filled2 stopped2 ->
  sends third filled3 stopped3 ->
  forall (w0 w1 w' : W) (T1 : string) (t1 tr : trace) (o : outcome unit),
    first w0 = (Done T1, w1, t1) ->
    (transcript <- first ;; second transcript ;; third transcript ;; ret tt) w0 =
      (o, w', tr) ->
    exists t23,
      tr = t1 +++ t23 /\
      (forall e, filled2 T1 = Err e -> o = Raised e /\ prompts_sent t23 = []) /\
      (forall p2, filled2 T1 = Ok p2 ->
         (exists rest, prompts_sent t23 = p2 :: rest) \/
         (exists e, stopped2 w1 e /\ o = Raised e /\ prompts_sent t23 = [])) /\
      (forall p2 T2 w2 t2,
         filled2 T1 = Ok p2 ->
         second T1 w1 = (Done T2, w2, t2) ->
         (forall e, filled3 T1 = Err e ->
            o = Raised e /\ prompts_sent t23 = [p2]) /\
         (forall p3, filled3 T1 = Ok p3 ->
            prompts_sent t23 = [p2; p3] \/
            (exists e, stopped3 w2 e /\ o = Raised e /\ prompts_sent t23 = [p2]))).
Proof.
  intros H2 H3 w0 w1 w' T1 t1 tr o H1.
  unfold bind at 1; rewrite H1.
  destruct (bind (second T1) _ w1) as [[o23 w23] t23] eqn:E.
  intros H; injection H as -> _ <-.
  exists t23; split; [reflexivity|].
  revert E; unfold bind at 1.
  destruct (second T1 w1) as [[o2 w2] t2] eqn:E2.
  destruct (H2 _ _ _ _ _ E2) as [Herr2 Hok2].
  destruct o2 as [v2|e2|].
  - unfold bind at 1.
    destruct (third T1 w2) as [[o3 w3] t3] eqn:E3.
    destruct (H3 _ _ _ _ _ E3) as [Herr3 Hok3].
    intros E.
    assert (Et : t23 = t2 +++ t3 /\
                 (forall e, o3 = Raised e -> o = Raised e)).
    { revert E; destruct o3; unfold ret; intros E; injection E as <- _ <-;
        rewrite ?app_nil_r; split; try reflexivity; intros e' He;
        try discriminate He; now injection He as <-. }
    destruct Et as [-> Ho]; clear E.
    rewrite prompts_sent_app.
    split; [|split].
    + intros e He; destruct (Herr2 e He) as [Hd _]; discriminate Hd.
    + intros p2 Hp2; left.
      destruct (Hok2 p2 Hp2) as [S2 | [e [_ [Hd _]]]]; [|discriminate Hd].
      rewrite S2; now exists (prompts_sent t3).
    + intros p2 T2 w2' t2' Hp2 Hd; injection Hd as -> -> ->.
      destruct (Hok2 p2 Hp2) as [S2 | [e [_ [Hd _]]]]; [|discriminate Hd].
      rewrite S2; split.
      * intros e He; destruct (Herr3 e He) as [Hr S3].
        rewrite S3; split; [now apply Ho | reflexivity].
      * intros p3 Hp3.
        destruct (Hok3 p3 Hp3) as [S3 | [e [Hst [Hr S3]]]]; rewrite S3.
        -- now left.
        -- right; exists e; split; [exact Hst|]; split; [now apply Ho | reflexivity].
  - intros E; injection E as <- _ <-; split; [|split].
    + intros e He; destruct (Herr2 e He) as [Hr S2].
      injection Hr as <-; now split.
    + intros p2 Hp2.
      destruct (Hok2 p2 Hp2) as [S2 | [e [Hst [Hr S2]]]].
      * left; rewrite S2; now exists [].
      * right; exists e; injection Hr as <-; now repeat split.
    + intros p2 T2 w2' t2' _ Hd; discriminate Hd.
  - intros E; injection E as <- _ <-; split; [|split].
    + intros e He; destruct (Herr2 e He) as [Hr _]; discriminate Hr.
    + intros p2 Hp2.
      destruct (Hok2 p2 Hp2) as [S2 | [e [_ [Hr _]]]]; [|discriminate Hr].
      left; rewrite S2; now exists [].
    + intros p2 T2 w2' t2' _ Hd; discriminate Hd.
Qed.

(** Nothing stops a task of chatgpt.py between filling its template and
    submitting it. *)
Definition never_stopped {W : Type} (w : W) (e : exn) : Prop := False.

Section ChatGPTSends.

Context {W : Type} (P : ChatGPT.provider W) (T : Prompts).

Lemma task2_sends (fuel : nat) (assistant : ChatGPT.Assistant)
    (thread : ChatGPT.Thread) :
  sends (ChatGPT.task2 P T fuel assistant thread)
        (format_transcript T (PROMPT_FACTUAL_CORRECTNESS T)) never_stopped.
Proof.
  intros transcript w o w1 t; unfold ChatGPT.task2.
  unfold bind at 1, print at 1; unfold bind at 1, lift at 1.
  destruct (format_transcript T _ transcript) as [p|e].
  - unfold bind at 1, call at 1.
    destruct (ChatGPT.messages_create P _ _ _ _ w) as [[u|e] w2].
    + unfold bind at 1.
      destruct (ChatGPT.run_thread P fuel _ _ w2) as [[orun wr] tr] eqn:Er.
      apply run_thread_prompts in Er.
      destruct orun; unfold bind, print, ret;
        intros H; injection H as _ _ <-;
        (split; [intros e' He; discriminate He|]);
        intros p' Hp; injection Hp as <-; left;
        cbn [app prompts_sent prompt_of];
        rewrite ?prompts_sent_app, Er; reflexivity.
    + intros H; injection H as _ _ <-;
        (split; [intros e' He; discriminate He|]);
        intros p' Hp; injection Hp as <-; left; reflexivity.
  - intros H; injection H as <- _ <-; split.
    + intros e' He; injection He as <-; now split.
    + intros p Hp; discriminate Hp.
Qed.

Lemma task3_sends (fuel : nat) (assistant : ChatGPT.Assistant)
    (thread : ChatGPT.Thread) :
  sends (ChatGPT.task3 P T fuel assistant thread)
        (format_transcript T (PROMPT_PLAUSIBILITY T)) never_stopped.
Proof.
  intros transcript w o w1 t; unfold ChatGPT.task3.
  unfold bind at 1, print at 1; unfold bind at 1, lift at 1.
  destruct (format_transcript T _ transcript) as [p|e].
  - unfold bind at 1, call at 1.
    destruct (ChatGPT.messages_create P _ _ _ _ w) as [[u|e] w2].
    + unfold bind at 1.
      destruct (ChatGPT.run_thread P fuel _ _ w2) as [[orun wr] tr] eqn:Er.
      apply run_thread_prompts in Er.
      destruct orun; unfold bind, print, ret;
        intros H; injection H as _ _ <-;
        (split; [intros e' He; discriminate He|]);
        intros p' Hp; injection Hp as <-; left;
        cbn [app prompts_sent prompt_of];
        rewrite ?prompts_sent_app, Er; reflexivity.
    + intros H; injection H as _ _ <-;
        (split; [intros e' He; discriminate He|]);
        intros p' Hp; injection Hp as <-; left; reflexivity.
  - intros H; injection H as <- _ <-; split.
    + intros e' He; injection He as <-; now split.
    + intros p Hp; discriminate Hp.
Qed.

End ChatGPTSends.

Section GeminiSends.

Context {W : Type} (P : Gemini.provider W) (T : Prompts).

(** The resolver raised [e] in the world [w]. *)
Definition resolver_raised (w : W) (e : exn) : Prop :=
  exists wm tm, Gemini.pick_available_model P w = (Raised e, wm, tm).

(** The resolver has no loop: it returns or raises. *)
Lemma pick_available_model_ends (w w1 : W) (o : outcome string) (t : trace) :
  Gemini.pick_available_model P w = (o, w1, t) -> o <> Running.
Proof.
  destruct (Gemini.list_models P w) as [[available|e] w2] eqn:Hl.
  - rewrite (pick_available_model_listed P w w2 available Hl); cbv zeta.
    destruct (Gemini.by_priority _ _) as [m|].
    + intros H; injection H as <- _ _; discriminate.
    + destruct (filter Gemini.capable available) as [|m rest];
        intros H; injection H as <- _ _; discriminate.
  - unfold Gemini.pick_available_model.
    unfold bind at 1, try_except, bind at 1, call; rewrite Hl.
    destruct (is_Exception e); intros H; injection H as <- _ _; discriminate.
Qed.

(** [get_model_response] with no model name submits its prompt unless the
    resolver raised. *)
Lemma get_model_response_sends (prompt : string) (file_obj : Gemini.File)
    (w w1 : W) (o : outcome string) (t : trace) :
  Gemini.get_model_response P prompt file_obj None w = (o, w1, t) ->
  prompts_sent t = [prompt] \/
  exists e, resolver_raised w e /\ o = Raised e /\ prompts_sent t = [].
Proof.
  unfold Gemini.get_model_response; cbn [truthy].
  unfold bind at 1, print at 1; unfold bind at 1.
  destruct (Gemini.pick_available_model P w) as [[om wm] tm] eqn:Em.
  pose proof (pick_available_model_prompts P _ _ _ _ Em) as Sm.
  destruct om as [m|e|].
  - unfold bind at 1, call at 1.
    destruct (Gemini.generate_content P m prompt _ wm) as [[r|e] wg].
    + unfold bind, print, lift; destruct (Gemini.text r) as [v|e];
        intros H; injection H as _ _ <-; left;
        cbn [app prompts_sent prompt_of];
        rewrite prompts_sent_app, Sm; reflexivity.
    + intros H; injection H as _ _ <-; left;
        cbn [app prompts_sent prompt_of];
        rewrite prompts_sent_app, Sm; reflexivity.
  - intros H; injection H as <- _ <-; right; exists e.
    split; [now exists wm, tm|]; split; [reflexivity|].
    cbn [app prompts_sent prompt_of]; rewrite ?app_nil_r; exact Sm.
  - now elim (pick_available_model_ends _ _ _ _ Em).
Qed.

Lemma gemini_task2_sends (file_obj : Gemini.File) :
  sends (Gemini.task2 P T file_obj)
        (format_transcript T (PROMPT_FACTUAL_CORRECTNESS T)) resolver_raised.
Proof.
  intros transcript w o w1 t; unfold Gemini.task2.
  unfold bind at 1, print at 1; unfold bind at 1, lift at 1.
  destruct (format_transcript T _ transcript) as [p|e].
  - unfold bind at 1.
    destruct (Gemini.get_model_response P p file_obj None w) as [[og wg] tg] eqn:Eg.
    apply get_model_response_sends in Eg.
    destruct og as [v|e|]; unfold bind, print, ret;
      intros H; injection H as <- _ <-;
      (split; [intros e' He; discriminate He|]);
      intros p' Hp; injection Hp as <-;
      cbn [app prompts_sent prompt_of]; rewrite ?prompts_sent_app;
      cbn [app prompts_sent prompt_of]; rewrite ?app_nil_r.
    + destruct Eg as [Sg | [e [_ [Hd _]]]]; [now left | discriminate Hd].
    + destruct Eg as [Sg | [e' [Hst [Hd Sg]]]]; [now left|].
      right; exists e'; now repeat split.
    + destruct Eg as [Sg | [e' [_ [Hd _]]]]; [now left | discriminate Hd].
  - intros H; injection H as <- _ <-; split.
    + intros e' He; injection He as <-; now split.
    + intros p Hp; discriminate Hp.
Qed.

Lemma gemini_task3_sends :
  sends (Gemini.task3 P T)
        (format_transcript T (PROMPT_PLAUSIBILITY T)) resolver_raised.
Proof.
  intros transcript w o w1 t; unfold Gemini.task3.
  unfold bind at 1, print at 1; unfold bind at 1, lift at 1.
  destruct (format_transcript T _ transcript) as [p|e].
  - unfold bind at 1.
    destruct (Gemini.pick_available_model P w) as [[om wm] tm] eqn:Em.
    pose proof (pick_available_model_prompts P _ _ _ _ Em) as Sm.
    destruct om as [m|e|].
    + unfold bind at 1, call at 1.
      destruct (Gemini.generate_content P m p None wm) as [[r|e] wg].
      * unfold bind, print, lift, ret; destruct (Gemini.text r) as [v|e];
          intros H; injection H as _ _ <-;
          (split; [intros e' He; discriminate He|]);
          intros p' Hp; injection Hp as <-; left;
          cbn [app prompts_sent prompt_of];
          rewrite prompts_sent_app, Sm; reflexivity.
      * intros H; injection H as _ _ <-;
          (split; [intros e' He; discriminate He|]);
          intros p' Hp; injection Hp as <-; left;
          cbn [app prompts_sent prompt_of];
          rewrite prompts_sent_app, Sm; reflexivity.
    + intros H; injection H as <- _ <-;
        (split; [intros e' He; discriminate He|]);
        intros p' Hp; injection Hp as <-; right; exists e.
      split; [now exists wm, tm|]; split; [reflexivity|].
      cbn [app prompts_sent prompt_of]; rewrite ?app_nil_r; exact Sm.
    + now elim (pick_available_model_ends _ _ _ _ Em).
  - intros H; injection H as <- _ <-; split.
    + intros e' He; injection He as <-; now split.
    + intros p Hp; discriminate Hp.
Qed.

End GeminiSends.

(** C6.  In both scripts, for every transcript [T1] that task 1
    returns, the prompts submitted afterwards are the factual-correctness
    template and the plausibility template filled with [T1], in this
    order, and nothing else:
    - every prompt submitted after task 1 is one of the two templates
      filled with [T1], and a run whose three tasks complete has
      submitted exactly these two, in this order;
    - when the factual-correctness template cannot be filled, the run
      raises that error and submits nothing more;
    - when it can be filled, the filled template is the next prompt
      submitted (in gemini.py unless the model resolver raised, which
      ends the run before the submission);
    - when task 2 has returned, task 3 either raises the error of filling
      the plausibility template, or submits that template filled with
      [T1] (in gemini.py unless the model resolver raised).
    The prompt of task 3 is filled with [T1], whatever task 2 returned. *)
Theorem prompts_interpolate_transcript :
  (forall (W : Type) (P : ChatGPT.provider W) (T : Prompts) (fuel : nat)
          (file_obj : ChatGPT.FileObject) (assistant : ChatGPT.Assistant)
          (thread : ChatGPT.Thread) (w0 w1 w' : W) (T1 : string)
          (t1 tr : trace) (o : outcome unit),
     ChatGPT.task1 P T fuel file_obj assistant thread w0 = (Done T1, w1, t1) ->
     ChatGPT.tasks P T fuel file_obj assistant thread w0 = (o, w', tr) ->
     exists t23,
       tr = t1 +++ t23 /\
       (forall p, In p (prompts_sent t23) ->
          format_transcript T (PROMPT_FACTUAL_CORRECTNESS T) T1 = Ok p \/
          format_transcript T (PROMPT_PLAUSIBILITY T) T1 = Ok p) /\
       (o = Done tt ->
        exists p2 p3,
          format_transcript T (PROMPT_FACTUAL_CORRECTNESS T) T1 = Ok p2 /\
          format_transcript T (PROMPT_PLAUSIBILITY T) T1 = Ok p3 /\
          prompts_sent t23 = [p2; p3]) /\
       (forall e,
          format_transcript T (PROMPT_FACTUAL_CORRECTNESS T) T1 = Err e ->
          o = Raised e /\ prompts_sent t23 = []) /\
       (forall p2,
          format_transcript T (PROMPT_FACTUAL_CORRECTNESS T) T1 = Ok p2 ->
          exists rest, prompts_sent t23 = p2 :: rest) /\
       (forall p2 T2 w2 t2,
          format_transcript T (PROMPT_FACTUAL_CORRECTNESS T) T1 = Ok p2 ->
          ChatGPT.task2 P T fuel assistant thread T1 w1 = (Done T2, w2, t2) ->
          (forall e,
             format_transcript T (PROMPT_PLAUSIBILITY T) T1 = Err e ->
             o = Raised e /\ prompts_sent t23 = [p2]) /\
          (forall p3,
             format_transcript T (PROMPT_PLAUSIBILITY T) T1 = Ok p3 ->
             prompts_sent t23 = [p2; p3]))) /\
  (forall (W : Type) (P : Gemini.provider W) (T : Prompts)
          (file_obj : Gemini.File) (w0 w1 w' : W) (T1 : string)
          (t1 tr : trace) (o : outcome unit),
     Gemini.task1 P T file_obj w0 = (Done T1, w1, t1) ->
     Gemini.tasks P T file_obj w0 = (o, w', tr) ->
     exists t23,
       tr = t1 +++ t23 /\
       (forall p, In p (prompts_sent t23) ->
          format_transcript T (PROMPT_FACTUAL_CORRECTNESS T) T1 = Ok p \/
          format_transcript T (PROMPT_PLAUSIBILITY T) T1 = Ok p) /\
       (o = Done tt ->
        exists p2 p3,
          format_transcript T (PROMPT_FACTUAL_CORRECTNESS T) T1 = Ok p2 /\
          format_transcript T (PROMPT_PLAUSIBILITY T) T1 = Ok p3 /\
          prompts_sent t23 = [p2; p3]) /\
       (forall e,
          format_transcript T (PROMPT_FACTUAL_CORRECTNESS T) T1 = Err e ->
          o = Raised e /\ prompts_sent t23 = []) /\
       (forall p2,
          format_transcript T (PROMPT_FACTUAL_CORRECTNESS T) T1 = Ok p2 ->
          (exists rest, prompts_sent t23 = p2 :: rest) \/
          (exists e wm tm,
             Gemini.pick_available_model P w1 = (Raised e, wm, tm) /\
             o = Raised e /\ prompts_sent t23 = [])) /\
       (forall p2 T2 w2 t2,
          format_transcript T (PROMPT_FACTUAL_CORRECTNESS T) T1 = Ok p2 ->
          Gemini.task2 P T file_obj T1 w1 = (Done T2, w2, t2) ->
          (forall e,
             format_transcript T (PROMPT_PLAUSIBILITY T) T1 = Err e ->
             o = Raised e /\ prompts_sent t23 = [p2]) /\
          (forall p3,
             format_transcript T (PROMPT_PLAUSIBILITY T) T1 = Ok p3 ->
             prompts_sent t23 = [p2; p3] \/
             (exists e wm tm,
                Gemini.pick_available_model P w2 = (Raised e, wm, tm) /\
                o = Raised e /\ prompts_sent t23 = [p2])))).
Proof.
  split.
  - intros W P T fuel file_obj assistant thread w0 w1 w' T1 t1 tr o H1 Ht.
    destruct (prompt_chain _ _ _ _ _
                (task2_submits P T fuel assistant thread)
                (task3_submits P T fuel assistant thread)
                w0 w1 w' T1 t1 tr o H1 Ht) as [t23 [Etr [Hin Hdone]]].
    destruct (prompt_chain_sends _ _ _ _ _ _ _
                (task2_sends P T fuel assistant thread)
                (task3_sends P T fuel assistant thread)
                w0 w1 w' T1 t1 tr o H1 Ht) as [t23' [Etr' [Herr [Hnext Hthird]]]].
    assert (t23' = t23) as -> by (apply (app_inv_head t1); congruence).
    exists t23; repeat (split; [assumption|]); split.
    + intros p2 Hp2.
      destruct (Hnext p2 Hp2) as [Hr | [e [[] _]]]; exact Hr.
    + intros p2 T2 w2 t2 Hp2 H2.
      destruct (Hthird p2 T2 w2 t2 Hp2 H2) as [He3 Hp3].
      split; [exact He3|].
      intros p3 F3; destruct (Hp3 p3 F3) as [Hr | [e [[] _]]]; exact Hr.
  - intros W P T file_obj w0 w1 w' T1 t1 tr o H1 Ht.
    destruct (prompt_chain _ _ _ _ _
                (gemini_task2_submits P T file_obj)
                (gemini_task3_submits P T)
                w0 w1 w' T1 t1 tr o H1 Ht) as [t23 [Etr [Hin Hdone]]].
    destruct (prompt_chain_sends _ _ _ _ _ _ _
                (gemini_task2_sends P T file_obj)
                (gemini_task3_sends P T)
                w0 w1 w' T1 t1 tr o H1 Ht) as [t23' [Etr' [Herr [Hnext Hthird]]]].
    assert (t23' = t23) as -> by (apply (app_inv_head t1); congruence).
    exists t23; repeat (split; [assumption|]); split.
    + intros p2 Hp2.
      destruct (Hnext p2 Hp2) as [Hr | [e [[wm [tm Hm]] [Ho Hs]]]];
        [now left | right; exists e, wm, tm; now repeat split].
    + intros p2 T2 w2 t2 Hp2 H2.
      destruct (Hthird p2 T2 w2 t2 Hp2 H2) as [He3 Hp3].
      split; [exact He3|].
      intros p3 F3.
      destruct (Hp3 p3 F3) as [Hr | [e [[wm [tm Hm]] [Ho Hs]]]];
        [now left | right; exists e, wm, tm; now repeat split].
Qed.

(** The end-to-end scenario, in both scripts: templates "Generate:",
    "Check facts: {transcript}", "Check plausibility: {transcript}" and a
    provider whose three completions are T1, T2, T3. *)
Lemma prompts_interpolate_transcript_witness :
  let P := Demo.openai true (Ok Demo.asst) Demo.four_statuses
             Demo.numbered_answers (Ok tt) in
  let run := ChatGPT.tasks P Demo.prompts 4 {| ChatGPT.file_id := "file-1" |}
               Demo.asst {| ChatGPT.thread_id := "thread-1" |} (0, 0) in
  let G := Demo.gemini true (Ok (Some "application/pdf")) None
             (Ok [Demo.model "models/gemini-1.5-pro" ["generateContent"]])
             Demo.numbered_replies in
  let grun := Gemini.tasks G Demo.prompts {| Gemini.file_name := "files/1" |} 0 in
  (fst (fst run) = Done tt /\
   prompts_sent (snd run) =
     ["Generate:"; "Check facts: T1"; "Check plausibility: T1"]) /\
  (fst (fst grun) = Done tt /\
   prompts_sent (snd grun) =
     ["Generate:"; "Check facts: T1"; "Check plausibility: T1"]).
Proof.
  intros P run G grun.
  split.
  - assert (E : run = (fst (fst run), snd (fst run), snd run))
      by (destruct run as [[o w] t]; reflexivity).
    assert (Ho : fst (fst run) = Done tt) by reflexivity.
    split; [exact Ho|].
    edestruct (proj1 prompts_interpolate_transcript _ P Demo.prompts 4
                 {| ChatGPT.file_id := "file-1" |} Demo.asst
                 {| ChatGPT.thread_id := "thread-1" |} (0, 0))
      as [t23 [Etr [_ [_ [_ [_ Hthird]]]]]]; [reflexivity | exact E |].
    edestruct (Hthird "Check facts: T1") as [_ H3]; [reflexivity | reflexivity |].
    rewrite Etr, prompts_sent_app, (H3 "Check plausibility: T1" eq_refl).
    reflexivity.
  - assert (E : grun = (fst (fst grun), snd (fst grun), snd grun))
      by (destruct grun as [[o w] t]; reflexivity).
    assert (Ho : fst (fst grun) = Done tt) by reflexivity.
    split; [exact Ho|].
    edestruct (proj2 prompts_interpolate_transcript _ G Demo.prompts
                 {| Gemini.file_name := "files/1" |} 0)
      as [t23 [Etr [_ [Hdone _]]]]; [reflexivity | exact E |].
    destruct (Hdone Ho) as [p2 [p3 [F2 [F3 S23]]]].
    rewrite Etr, prompts_sent_app, S23.
    cbv in F2; injection F2 as <-.
    cbv in F3; injection F3 as <-.
    reflexivity.
Defined.

Example gemini_end_to_end :
  let P := Demo.gemini true (Ok (Some "application/pdf")) None
             (Ok [Demo.model "models/gemini-1.5-pro" ["generateContent"]])
             Demo.numbered_replies in
  let run := Gemini.main P Demo.prompts ["gemini.py"; "case.pdf"] 0 in
  fst (fst run) = Done tt /\
  prompts_sent (snd run) =
    ["Generate:"; "Check facts: T1"; "Check plausibility: T1"] /\
  releases (snd run) = [DeleteFile "files/1"].
Proof. repeat split. Qed.

(** * More on [run_thread] *)

Lemma slept_app (t1 t2 : trace) : slept (t1 +++ t2) = (slept t1 + slept t2)%Z.
Proof.
  induction t1 as [|ev t1 IH]; cbn [app slept]; [reflexivity|].
  destruct ev; rewrite ?IH; lia.
Qed.

Lemma slept_polling (thread run : string) (n : nat) :
  slept (ChatGPT.polling thread run n) = (2 * Z.of_nat n)%Z.
Proof.
  induction n as [|n IH]; [reflexivity|].
  cbn [ChatGPT.polling slept]; rewrite IH; lia.
Qed.

Section RunThreadMore.

Context {W : Type} (P : ChatGPT.provider W).

(** A round in which the fetch raises. *)
Lemma poll_raises (fuel : nat) (thread run : string) (w w1 : W) (e : exn) :
  ChatGPT.runs_retrieve P thread run w = (Err e, w1) ->
  ChatGPT.poll P (S fuel) thread run w = (Raised e, w1, [RunsRetrieve thread run]).
Proof.
  intros Hr; cbn [ChatGPT.poll]; unfold bind, call; rewrite Hr; reflexivity.
Qed.

Lemma fetched_err_inv (thread run : string) (n : nat) (w : W) (e : exn) :
  ChatGPT.fetched P thread run n w = Err e ->
  ChatGPT.runs_retrieve P thread run (ChatGPT.world_at_fetch P thread run n w) =
    (Err e, ChatGPT.world_after_fetch P thread run n w).
Proof.
  unfold ChatGPT.fetched, ChatGPT.world_after_fetch.
  destruct (ChatGPT.runs_retrieve P thread run _) as [r w1]; simpl.
  now intros ->.
Qed.

Lemma not_terminal_rounds (thread run : string) (n : nat) (w : W) :
  (forall k, k < n ->
     exists s,
       ChatGPT.fetched_status P thread run k w = Some s /\
       ~ In s ["completed"; "failed"; "cancelled"; "expired"]) ->
  forall k, k < n ->
    exists s,
      ChatGPT.fetched_status P thread run k w = Some s /\
      ChatGPT.is_terminal s = false.
Proof.
  intros H k Hk; destruct (H k Hk) as [s [E Hn]].
  exists s; split; [exact E | now apply is_terminal_In].
Qed.

(** X1.  A run completed at fetch [n], after [n] fetches that were not
    terminal: [run_thread] has fetched [n + 1] times, slept [2 * n] seconds
    in all, and returns the text of the first content block of the latest
    message. *)
Theorem run_thread_completes :
  forall (n fuel : nat) (assistant thread : string) (w0 w1 w2 : W)
         (run : ChatGPT.Run) (latest : ChatGPT.Message)
         (older : list ChatGPT.Message) (value : string)
         (blocks : list ChatGPT.ContentBlock),
    ChatGPT.runs_create P thread assistant w0 = (Ok run, w1) ->
    (forall k, k < n ->
       exists s,
         ChatGPT.fetched_status P thread (ChatGPT.run_id run) k w1 = Some s /\
         ~ In s ["completed"; "failed"; "cancelled"; "expired"]) ->
    ChatGPT.fetched_status P thread (ChatGPT.run_id run) n w1 = Some "completed" ->
    ChatGPT.messages_list P thread
      (ChatGPT.world_after_fetch P thread (ChatGPT.run_id run) n w1) =
      (Ok (latest :: older), w2) ->
    ChatGPT.content latest = ChatGPT.TextContentBlock value :: blocks ->
    n < fuel ->
    let t :=
      [ RunsCreate thread assistant;
        Print ("Run started (ID: " ++ ChatGPT.run_id run ++ "). Waiting for completion...") ]
      +++ ChatGPT.polling thread (ChatGPT.run_id run) n
      +++ [ RunsRetrieve thread (ChatGPT.run_id run);
            Print "Run completed.";
            MessagesList thread ] in
    ChatGPT.run_thread P fuel assistant thread w0 = (Done value, w2, t) /\
    fetches t = S n /\
    slept t = (2 * Z.of_nat n)%Z.
Proof.
  intros n fuel assistant thread w0 w1 w2 run latest older value blocks
         Hc Hk Hs Hm Hl Hf t.
  split; [|split].
  - rewrite (run_thread_created P fuel _ _ _ _ _ Hc).
    replace fuel with (n + S (fuel - S n)) by lia.
    unfold bind at 1.
    rewrite (poll_rounds P thread (ChatGPT.run_id run) n (S (fuel - S n)) w1)
      by (apply not_terminal_rounds; exact Hk).
    apply fetched_status_inv in Hs; destruct Hs as [r [Hr Hst]].
    rewrite (poll_completed P _ _ _ _ _ _ Hr Hst).
    unfold bind, call; rewrite Hm.
    unfold lift, ChatGPT.latest_text; rewrite Hl.
    unfold t; cbn [app]; rewrite <- !app_assoc; reflexivity.
  - unfold t; rewrite !fetches_app, fetches_polling.
    unfold fetches; simpl; lia.
  - unfold t; rewrite !slept_app, slept_polling; cbn [slept]; lia.
Qed.

End RunThreadMore.

Section RunThreadErrors.

Context {W : Type} (P : ChatGPT.provider W).

(** [run_thread] after [n] rounds that were not terminal: what is left is
    the loop from fetch [n] on, then the listing. *)
Lemma run_thread_after_rounds (n fuel : nat) (assistant thread : string)
    (w0 w1 : W) (run : ChatGPT.Run) :
  ChatGPT.runs_create P thread assistant w0 = (Ok run, w1) ->
  (forall k, k < n ->
     exists s,
       ChatGPT.fetched_status P thread (ChatGPT.run_id run) k w1 = Some s /\
       ~ In s ["completed"; "failed"; "cancelled"; "expired"]) ->
  n < fuel ->
  ChatGPT.run_thread P fuel assistant thread w0 =
    let '(o, w2, t) :=
      (ChatGPT.poll P (S (fuel - S n)) thread (ChatGPT.run_id run) ;;
       messages <- call (MessagesList thread) (ChatGPT.messages_list P thread) ;;
       lift (ChatGPT.latest_text messages))
        (ChatGPT.world_at_fetch P thread (ChatGPT.run_id run) n w1) in
    (o, w2,
     [ RunsCreate thread assistant;
       Print ("Run started (ID: " ++ ChatGPT.run_id run ++ "). Waiting for completion...") ]
     +++ ChatGPT.polling thread (ChatGPT.run_id run) n +++ t).
Proof.
  intros Hc Hk Hf.
  rewrite (run_thread_created P fuel _ _ _ _ _ Hc).
  replace fuel with (n + S (fuel - S n)) at 1 by lia.
  unfold bind at 1 3.
  rewrite (poll_rounds P thread (ChatGPT.run_id run) n (S (fuel - S n)) w1)
    by (apply not_terminal_rounds; exact Hk).
  destruct (ChatGPT.poll P (S (fuel - S n)) thread (ChatGPT.run_id run) _)
    as [[o w2] t].
  destruct o as [u|e|]; [|reflexivity|reflexivity].
  destruct (bind _ _ w2) as [[o3 w3] t3].
  cbn [app]; now rewrite <- !app_assoc.
Qed.

Lemma run_thread_not_created (fuel : nat) (assistant thread : string)
    (w0 w1 : W) (e : exn) :
  ChatGPT.runs_create P thread assistant w0 = (Err e, w1) ->
  ChatGPT.run_thread P fuel assistant thread w0 =
    (Raised e, w1, [RunsCreate thread assistant]).
Proof.
  intros Hc.
  unfold ChatGPT.run_thread, bind at 1, call at 1; rewrite Hc; reflexivity.
Qed.

(** X2.  An error of the provider ends [run_thread] at once, with that error
    and no retry: when creating the run raises, when a status fetch
    raises, and when listing the messages of a completed run raises. *)
Theorem run_thread_provider_error :
  (forall (fuel : nat) (assistant thread : string) (w0 w1 : W) (e : exn),
     ChatGPT.runs_create P thread assistant w0 = (Err e, w1) ->
     ChatGPT.run_thread P fuel assistant thread w0 =
       (Raised e, w1, [RunsCreate thread assistant])) /\
  (forall (n fuel : nat) (assistant thread : string) (w0 w1 : W)
          (run : ChatGPT.Run) (e : exn),
     ChatGPT.runs_create P thread assistant w0 = (Ok run, w1) ->
     (forall k, k < n ->
        exists s,
          ChatGPT.fetched_status P thread (ChatGPT.run_id run) k w1 = Some s /\
          ~ In s ["completed"; "failed"; "cancelled"; "expired"]) ->
     ChatGPT.fetched P thread (ChatGPT.run_id run) n w1 = Err e ->
     n < fuel ->
     ChatGPT.run_thread P fuel assistant thread w0 =
       (Raised e, ChatGPT.world_after_fetch P thread (ChatGPT.run_id run) n w1,
        [ RunsCreate thread assistant;
          Print ("Run started (ID: " ++ ChatGPT.run_id run ++ "). Waiting for completion...") ]
        +++ ChatGPT.polling thread (ChatGPT.run_id run) n
        +++ [RunsRetrieve thread (ChatGPT.run_id run)])) /\
  (forall (n fuel : nat) (assistant thread : string) (w0 w1 w2 : W)
          (run : ChatGPT.Run) (e : exn),
     ChatGPT.runs_create P thread assistant w0 = (Ok run, w1) ->
     (forall k, k < n ->
        exists s,
          ChatGPT.fetched_status P thread (ChatGPT.run_id run) k w1 = Some s /\
          ~ In s ["completed"; "failed"; "cancelled"; "expired"]) ->
     ChatGPT.fetched_status P thread (ChatGPT.run_id run) n w1 = Some "completed" ->
     ChatGPT.messages_list P thread
       (ChatGPT.world_after_fetch P thread (ChatGPT.run_id run) n w1) = (Err e, w2) ->
     n < fuel ->
     ChatGPT.run_thread P fuel assistant thread w0 =
       (Raised e, w2,
        [ RunsCreate thread assistant;
          Print ("Run started (ID: " ++ ChatGPT.run_id run ++ "). Waiting for completion...") ]
        +++ ChatGPT.polling thread (ChatGPT.run_id run) n
        +++ [ RunsRetrieve thread (ChatGPT.run_id run);
              Print "Run completed.";
              MessagesList thread ])).
Proof.
  split; [|split].
  - intros fuel assistant thread w0 w1 e Hc.
    exact (run_thread_not_created fuel _ _ _ _ _ Hc).
  - intros n fuel assistant thread w0 w1 run e Hc Hk He Hf.
    rewrite (run_thread_after_rounds n fuel _ _ _ _ _ Hc Hk Hf).
    unfold bind at 1.
    rewrite (poll_raises P _ _ _ _ _ _ (fetched_err_inv P _ _ _ _ _ He)).
    reflexivity.
  - intros n fuel assistant thread w0 w1 w2 run e Hc Hk Hs Hm Hf.
    rewrite (run_thread_after_rounds n fuel _ _ _ _ _ Hc Hk Hf).
    apply fetched_status_inv in Hs; destruct Hs as [r [Hr Hst]].
    unfold bind at 1.
    rewrite (poll_completed P _ _ _ _ _ _ Hr Hst).
    unfold bind, call; rewrite Hm; reflexivity.
Qed.

(** X3.  A completed run whose thread lists no message, or whose latest
    message has no content block: [run_thread] has made the listing call and
    raises IndexError instead of returning a text. *)
Theorem run_thread_nothing_to_read :
  forall (n fuel : nat) (assistant thread : string) (w0 w1 w2 : W)
         (run : ChatGPT.Run) (messages : list ChatGPT.Message),
    ChatGPT.runs_create P thread assistant w0 = (Ok run, w1) ->
    (forall k, k < n ->
       exists s,
         ChatGPT.fetched_status P thread (ChatGPT.run_id run) k w1 = Some s /\
         ~ In s ["completed"; "failed"; "cancelled"; "expired"]) ->
    ChatGPT.fetched_status P thread (ChatGPT.run_id run) n w1 = Some "completed" ->
    ChatGPT.messages_list P thread
      (ChatGPT.world_after_fetch P thread (ChatGPT.run_id run) n w1) =
      (Ok messages, w2) ->
    (messages = [] \/
     exists latest older,
       messages = latest :: older /\ ChatGPT.content latest = []) ->
    n < fuel ->
    ChatGPT.run_thread P fuel assistant thread w0 =
      (Raised (PyError "IndexError" "list index out of range"), w2,
       [ RunsCreate thread assistant;
         Print ("Run started (ID: " ++ ChatGPT.run_id run ++ "). Waiting for completion...") ]
       +++ ChatGPT.polling thread (ChatGPT.run_id run) n
       +++ [ RunsRetrieve thread (ChatGPT.run_id run);
             Print "Run completed.";
             MessagesList thread ]).
Proof.
  intros n fuel assistant thread w0 w1 w2 run messages Hc Hk Hs Hm Hempty Hf.
  rewrite (run_thread_after_rounds n fuel _ _ _ _ _ Hc Hk Hf).
  apply fetched_status_inv in Hs; destruct Hs as [r [Hr Hst]].
  unfold bind at 1.
  rewrite (poll_completed P _ _ _ _ _ _ Hr Hst).
  unfold bind, call; rewrite Hm.
  destruct Hempty as [-> | [latest [older [-> Hl]]]];
    unfold lift, ChatGPT.latest_text; rewrite ?Hl; reflexivity.
Qed.

(** Once the loop has ended within the rounds followed, following more
    rounds changes nothing. *)
Lemma poll_enough_fuel (fuel : nat) (thread run : string) :
  forall (fuel' : nat) (w w1 : W) (o : outcome unit) (t : trace),
    ChatGPT.poll P fuel thread run w = (o, w1, t) ->
    o <> Running ->
    fuel <= fuel' ->
    ChatGPT.poll P fuel' thread run w = (o, w1, t).
Proof.
  induction fuel as [|fuel IH]; intros fuel' w w1 o t Hp Hn Hle.
  - injection Hp as <- _ _; now elim Hn.
  - destruct fuel' as [|fuel']; [lia|].
    destruct (ChatGPT.runs_retrieve P thread run w) as [[r|e] w2] eqn:Hr.
    + destruct (ChatGPT.status r =? "completed") eqn:Hc.
      * apply String.eqb_eq in Hc.
        rewrite (poll_completed P _ _ _ _ _ _ Hr Hc) in Hp.
        now rewrite (poll_completed P _ _ _ _ _ _ Hr Hc).
      * destruct (str_in (ChatGPT.status r) ChatGPT.fatal_statuses) eqn:Hf.
        -- rewrite (poll_fatal P _ _ _ _ _ _ Hr Hf) in Hp.
           now rewrite (poll_fatal P _ _ _ _ _ _ Hr Hf).
        -- assert (Ht : ChatGPT.is_terminal (ChatGPT.status r) = false)
             by (unfold ChatGPT.is_terminal; now rewrite Hc, Hf).
           rewrite (poll_step P _ _ _ _ _ _ Hr Ht) in Hp.
           rewrite (poll_step P _ _ _ _ _ _ Hr Ht).
           destruct (ChatGPT.poll P fuel thread run (ChatGPT.sleep P 2 w2))
             as [[o' w'] t'] eqn:E.
           injection Hp as <- <- <-.
           now rewrite (IH fuel' _ _ _ _ E Hn) by lia.
    + rewrite (poll_raises P _ _ _ _ _ _ Hr) in Hp.
      now rewrite (poll_raises P _ _ _ _ _ _ Hr).
Qed.

(** The bound on the rounds followed is a device of the model, and the
    results do not depend on it: once [run_thread] has ended within the
    rounds followed, following more rounds gives the same outcome, world
    and trace. *)
Lemma run_thread_enough_fuel :
  forall (fuel fuel' : nat) (assistant thread : string) (w w1 : W)
         (o : outcome string) (t : trace),
    ChatGPT.run_thread P fuel assistant thread w = (o, w1, t) ->
    o <> Running ->
    fuel <= fuel' ->
    ChatGPT.run_thread P fuel' assistant thread w = (o, w1, t).
Proof.
  intros fuel fuel' assistant thread w w1 o t Hr Hn Hle.
  destruct (ChatGPT.runs_create P thread assistant w) as [[run|e] w2] eqn:Hc.
  - rewrite (run_thread_created P fuel _ _ _ _ _ Hc) in Hr.
    rewrite (run_thread_created P fuel' _ _ _ _ _ Hc).
    unfold bind at 1 in Hr; unfold bind at 1.
    destruct (ChatGPT.poll P fuel thread (ChatGPT.run_id run) w2)
      as [[o' w'] t'] eqn:E.
    assert (Hn' : o' <> Running).
    { intros ->; injection Hr as <- _ _; now apply Hn. }
    now rewrite (poll_enough_fuel fuel _ _ fuel' _ _ _ _ E Hn' Hle).
  - rewrite (run_thread_not_created fuel _ _ _ _ _ Hc) in Hr.
    now rewrite (run_thread_not_created fuel' _ _ _ _ _ Hc).
Qed.

End RunThreadErrors.

Section RunThreadTraces.

Context {W : Type} (P : ChatGPT.provider W).

(** The ways the loop can go: it is still running after all the rounds
    followed, or a fetch raised, or a fetch answered a fatal status, or a
    fetch answered completed; before that, only rounds of one fetch and a
    sleep of 2 seconds. *)
Lemma poll_traces (thread run : string) (fuel : nat) :
  forall (w w1 : W) (o : outcome unit) (t : trace),
    ChatGPT.poll P fuel thread run w = (o, w1, t) ->
    exists n,
      n <= fuel /\
      ((o = Running /\ n = fuel /\ t = ChatGPT.polling thread run n) \/
       (exists e,
          o = Raised e /\
          t = ChatGPT.polling thread run n +++ [RunsRetrieve thread run]) \/
       (exists s,
          In s ["failed"; "cancelled"; "expired"] /\
          o = Raised (SystemExit 1) /\
          t = ChatGPT.polling thread run n
              +++ [ RunsRetrieve thread run;
                    Print ("Run failed with status: " ++ s) ]) \/
       (o = Done tt /\
        t = ChatGPT.polling thread run n
            +++ [RunsRetrieve thread run; Print "Run completed."])).
Proof.
  induction fuel as [|fuel IH]; intros w w1 o t Hp.
  - injection Hp as <- _ <-; exists 0; split; [lia|]; now left.
  - destruct (ChatGPT.runs_retrieve P thread run w) as [[r|e] w2] eqn:Hr.
    + destruct (ChatGPT.status r =? "completed") eqn:Hc.
      * apply String.eqb_eq in Hc.
        rewrite (poll_completed P _ _ _ _ _ _ Hr Hc) in Hp.
        injection Hp as <- _ <-; exists 0; split; [lia|].
        right; right; right; now split.
      * destruct (str_in (ChatGPT.status r) ChatGPT.fatal_statuses) eqn:Hf.
        -- rewrite (poll_fatal P _ _ _ _ _ _ Hr Hf) in Hp.
           injection Hp as <- _ <-; exists 0; split; [lia|].
           right; right; left; exists (ChatGPT.status r).
           split; [now apply str_in_In | now split].
        -- assert (Ht : ChatGPT.is_terminal (ChatGPT.status r) = false)
             by (unfold ChatGPT.is_terminal; now rewrite Hc, Hf).
           rewrite (poll_step P _ _ _ _ _ _ Hr Ht) in Hp.
           destruct (ChatGPT.poll P fuel thread run (ChatGPT.sleep P 2 w2))
             as [[o' w'] t'] eqn:E.
           injection Hp as <- _ <-.
           destruct (IH _ _ _ _ E) as [n [Hle Hcases]].
           exists (S n); split; [lia|].
           destruct Hcases as [[-> [-> ->]] | [[e [-> ->]] | [[s [Hs [-> ->]]] | [-> ->]]]].
           ++ now left.
           ++ right; left; now exists e.
           ++ right; right; left; now exists s.
           ++ right; right; right; now split.
    + rewrite (poll_raises P _ _ _ _ _ _ Hr) in Hp.
      injection Hp as <- _ <-; exists 0; split; [lia|].
      right; left; now exists e.
Qed.

(** X4.  Every execution of [run_thread] has one of five forms.  Creating the
    run raised: the one call made.  Otherwise one run is created, then
    rounds of one status fetch on that run and a sleep of 2 seconds, and
    then: nothing yet (the loop is still going), or a fetch that raised, or
    a fetch and the print of a fatal status with exit code 1, or a fetch,
    "Run completed." and one listing of the messages.  The messages are
    listed only after a fetch answered completed. *)
Theorem run_thread_traces :
  forall (fuel : nat) (assistant thread : string) (w w1 : W)
         (o : outcome string) (t : trace),
    ChatGPT.run_thread P fuel assistant thread w = (o, w1, t) ->
    (exists e, o = Raised e /\ t = [RunsCreate thread assistant]) \/
    (exists (run : ChatGPT.Run) (n : nat),
       n <= fuel /\
       let fetch := RunsRetrieve thread (ChatGPT.run_id run) in
       let head :=
         [ RunsCreate thread assistant;
           Print ("Run started (ID: " ++ ChatGPT.run_id run ++ "). Waiting for completion...") ]
         +++ ChatGPT.polling thread (ChatGPT.run_id run) n in
       (o = Running /\ n = fuel /\ t = head) \/
       (exists e, o = Raised e /\ t = head +++ [fetch]) \/
       (exists s,
          In s ["failed"; "cancelled"; "expired"] /\
          o = Raised (SystemExit 1) /\
          t = head +++ [fetch; Print ("Run failed with status: " ++ s)]) \/
       (o <> Running /\
        t = head +++ [fetch; Print "Run completed."; MessagesList thread])).
Proof.
  intros fuel assistant thread w w1 o t Hr.
  destruct (ChatGPT.runs_create P thread assistant w) as [[run|e] w2] eqn:Hc.
  - right; exists run.
    rewrite (run_thread_created P fuel _ _ _ _ _ Hc) in Hr.
    unfold bind at 1 in Hr.
    destruct (ChatGPT.poll P fuel thread (ChatGPT.run_id run) w2)
      as [[o' w'] t'] eqn:E.
    destruct (poll_traces _ _ _ _ _ _ _ E) as [n [Hle Hcases]].
    exists n; split; [exact Hle|]; cbv zeta.
    destruct Hcases as [[-> [-> ->]] | [[e [-> ->]] | [[s [Hs [-> ->]]] | [-> ->]]]].
    + injection Hr as <- _ <-; left.
      repeat split; cbn [app]; rewrite ?app_nil_r; reflexivity.
    + injection Hr as <- _ <-; right; left; exists e; split; [reflexivity|].
      cbn [app]; rewrite ?app_nil_r, <- ?app_assoc; reflexivity.
    + injection Hr as <- _ <-; right; right; left; exists s.
      split; [exact Hs|]; split; [reflexivity|].
      cbn [app]; rewrite ?app_nil_r, <- ?app_assoc; reflexivity.
    + right; right; right.
      revert Hr; unfold bind, call.
      destruct (ChatGPT.messages_list P thread w') as [[messages|e] w3].
      * unfold lift; destruct (ChatGPT.latest_text messages);
          intros H; injection H as <- _ <-;
          (split; [discriminate|]);
          cbn [app]; rewrite <- !app_assoc; reflexivity.
      * intros H; injection H as <- _ <-; split; [discriminate|].
        cbn [app]; rewrite <- !app_assoc; reflexivity.
  - left; exists e.
    rewrite (run_thread_not_created P fuel _ _ _ _ _ Hc) in Hr.
    injection Hr as <- _ <-; now split.
Qed.

End RunThreadTraces.


(** Completed at the third fetch: 3 fetches, 4 seconds slept. *)
Lemma run_thread_completes_witness :
  let P := Demo.openai true (Ok Demo.asst)
             (fun _ n => nth n ["queued"; "in_progress"] "completed")
             Demo.numbered_answers (Ok tt) in
  let t :=
    [ RunsCreate "thread-1" "asst-1";
      Print "Run started (ID: run). Waiting for completion...";
      RunsRetrieve "thread-1" "run"; Sleep 2;
      RunsRetrieve "thread-1" "run"; Sleep 2;
      RunsRetrieve "thread-1" "run";
      Print "Run completed.";
      MessagesList "thread-1" ] in
  ChatGPT.run_thread P 3 "asst-1" "thread-1" (0, 0) = (Done "T1", (1, 3), t) /\
  fetches t = 3 /\
  slept t = 4%Z.
Proof.
  intros P t.
  apply (run_thread_completes P 2 3 "asst-1" "thread-1" (0, 0) (1, 0) (1, 3)
           {| ChatGPT.run_id := "run"; ChatGPT.status := "queued" |}
           (Demo.text_message "T1") [] "T1" []).
  - reflexivity.
  - intros k Hk; destruct k as [|[|k]];
      [exists "queued" | exists "in_progress" | lia];
      (split; [reflexivity | intros [H|[H|[H|[H|[]]]]]; discriminate H]).
  - reflexivity.
  - reflexivity.
  - reflexivity.
  - lia.
Defined.

(** The second status fetch raises a connection error. *)
Lemma run_thread_provider_error_witness :
  let P := Faults.openai
             (fun _ n => match n with
                         | 0 => Ok "queued"
                         | _ => Err (PyError "APIConnectionError" "Connection error.")
                         end)
             (fun _ => Ok []) in
  ChatGPT.run_thread P 5 "asst-1" "thread-1" (0, 0) =
    (Raised (PyError "APIConnectionError" "Connection error."), (1, 2),
     [ RunsCreate "thread-1" "asst-1";
       Print "Run started (ID: run). Waiting for completion...";
       RunsRetrieve "thread-1" "run"; Sleep 2;
       RunsRetrieve "thread-1" "run" ]).
Proof.
  intros P.
  apply (proj1 (proj2 (run_thread_provider_error P))
           1 5 "asst-1" "thread-1" (0, 0) (1, 0)
           {| ChatGPT.run_id := "run"; ChatGPT.status := "queued" |}).
  - reflexivity.
  - intros k Hk; destruct k as [|k]; [|lia].
    exists "queued"; split;
      [reflexivity | intros [H|[H|[H|[H|[]]]]]; discriminate H].
  - reflexivity.
  - lia.
Defined.

(** A run completed at once on a thread that lists no message. *)
Lemma run_thread_nothing_to_read_witness :
  let P := Faults.openai (fun _ _ => Ok "completed") (fun _ => Ok []) in
  ChatGPT.run_thread P 1 "asst-1" "thread-1" (0, 0) =
    (Raised (PyError "IndexError" "list index out of range"), (1, 1),
     [ RunsCreate "thread-1" "asst-1";
       Print "Run started (ID: run). Waiting for completion...";
       RunsRetrieve "thread-1" "run";
       Print "Run completed.";
       MessagesList "thread-1" ]).
Proof.
  intros P.
  apply (run_thread_nothing_to_read P 0 1 "asst-1" "thread-1" (0, 0) (1, 0) (1, 1)
           {| ChatGPT.run_id := "run"; ChatGPT.status := "queued" |} []).
  - reflexivity.
  - intros k Hk; lia.
  - reflexivity.
  - reflexivity.
  - now left.
  - lia.
Defined.

(** A run that returned a text: of the five forms only the last is left. *)
Lemma run_thread_traces_witness :
  let P := Demo.openai true (Ok Demo.asst) Demo.four_statuses
             Demo.numbered_answers (Ok tt) in
  let run := ChatGPT.run_thread P 4 "asst-1" "thread-1" (0, 0) in
  fst (fst run) = Done "T1" /\
  exists (r : ChatGPT.Run) (n : nat),
    n <= 4 /\
    snd run =
      [ RunsCreate "thread-1" "asst-1";
        Print ("Run started (ID: " ++ ChatGPT.run_id r ++ "). Waiting for completion...") ]
      +++ ChatGPT.polling "thread-1" (ChatGPT.run_id r) n
      +++ [ RunsRetrieve "thread-1" (ChatGPT.run_id r);
            Print "Run completed.";
            MessagesList "thread-1" ].
Proof.
  intros P run.
  assert (E : run = (fst (fst run), snd (fst run), snd run))
    by (destruct run as [[o w] t]; reflexivity).
  assert (Ho : fst (fst run) = Done "T1") by reflexivity.
  split; [exact Ho|].
  destruct (run_thread_traces P 4 "asst-1" "thread-1" (0, 0) _ _ _ E)
    as [[e [He _]] | [r [n [Hle Hcases]]]].
  - rewrite Ho in He; discriminate He.
  - exists r, n; split; [exact Hle|].
    destruct Hcases as [[Hr _] | [[e [He _]] | [[s [_ [He _]]] | [_ Ht]]]].
    + rewrite Ho in Hr; discriminate Hr.
    + rewrite Ho in He; discriminate He.
    + rewrite Ho in He; discriminate He.
    + rewrite Ht, <- app_assoc; reflexivity.
Defined.

(** * Runs that return *)

Section Returns.

Context {W : Type}.

Lemma bind_done {A B : Type} (m : M W A) (k : A -> M W B) (w w' : W) (b : B)
    (t : trace) :
  bind m k w = (Done b, w', t) ->
  exists a w1 t1 t2,
    m w = (Done a, w1, t1) /\ k a w1 = (Done b, w', t2) /\ t = t1 +++ t2.
Proof.
  unfold bind; destruct (m w) as [[o w1] t1]; destruct o as [a|e|];
    [|discriminate|discriminate].
  destruct (k a w1) as [[o2 w2] t2] eqn:E.
  intros H; injection H as -> <- <-.
  now exists a, w1, t1, t2.
Qed.

Lemma call_done {A : Type} (ev : event) (f : W -> result A * W) (w w' : W)
    (a : A) (t : trace) :
  call ev f w = (Done a, w', t) -> f w = (Ok a, w') /\ t = [ev].
Proof.
  unfold call; destruct (f w) as [[a'|e] w1]; [|discriminate].
  intros H; injection H as <- <- <-; now split.
Qed.

Lemma print_done (s : string) (w w' : W) (u : unit) (t : trace) :
  print s w = (Done u, w', t) -> w' = w /\ t = [Print s].
Proof. intros H; injection H as _ <- <-; now split. Qed.

Lemma lift_done {A : Type} (r : result A) (w w' : W) (a : A) (t : trace) :
  lift r w = (Done a, w', t) -> r = Ok a /\ w' = w /\ t = [].
Proof.
  unfold lift; destruct r as [a'|e]; [|discriminate].
  intros H; injection H as <- <- <-; now repeat split.
Qed.

Lemma query_done {A : Type} (f : W -> result A) (w w' : W) (a : A) (t : trace) :
  query f w = (Done a, w', t) -> f w = Ok a /\ w' = w /\ t = [].
Proof.
  unfold query; destruct (f w) as [a'|e]; [|discriminate].
  intros H; injection H as <- <- <-; now repeat split.
Qed.

Lemma read_done {A : Type} (f : W -> A) (w w' : W) (a : A) (t : trace) :
  read f w = (Done a, w', t) -> a = f w /\ w' = w /\ t = [].
Proof. intros H; injection H as <- <- <-; now repeat split. Qed.

Lemma ret_done {A : Type} (a a' : A) (w w' : W) (t : trace) :
  ret a w = (Done a', w', t) -> a' = a /\ w' = w /\ t = [].
Proof. intros H; injection H as <- <- <-; now repeat split. Qed.

Lemma try_finally_done {A : Type} (body : M W A) (handler : M W unit)
    (w w' : W) (a : A) (t : trace) :
  try_finally body handler w = (Done a, w', t) ->
  exists w1 t1 t2 u,
    body w = (Done a, w1, t1) /\ handler w1 = (Done u, w', t2) /\ t = t1 +++ t2.
Proof.
  unfold try_finally; destruct (body w) as [[o w1] t1]; destruct o as [a'|e|];
    [| |discriminate].
  - destruct (handler w1) as [[o2 w2] t2] eqn:E; destruct o2 as [u|e|];
      [|discriminate|discriminate].
    intros H; injection H as -> <- <-; now exists w1, t1, t2, u.
  - destruct (handler w1) as [[o2 w2] t2]; destruct o2; discriminate.
Qed.

End Returns.

(** Takes apart a hypothesis saying that a program returned. *)
Ltac returned H :=
  lazymatch type of H with
  | bind _ _ _ = (Done _, _, _) =>
      let H1 := fresh "R" in
      let H2 := fresh "R" in
      apply bind_done in H;
      destruct H as (? & ? & ? & ? & H1 & H2 & ->);
      cbv beta in H2; returned H1; returned H2
  | print _ _ = (Done _, _, _) =>
      apply print_done in H; destruct H as [-> ->]
  | call _ _ _ = (Done _, _, _) =>
      apply call_done in H; destruct H as [H ->]
  | lift _ _ = (Done _, _, _) =>
      apply lift_done in H; destruct H as (H & -> & ->)
  | query _ _ = (Done _, _, _) =>
      apply query_done in H; destruct H as (H & -> & ->)
  | read _ _ = (Done _, _, _) =>
      apply read_done in H; destruct H as (-> & -> & ->)
  | ret _ _ = (Done _, _, _) =>
      apply ret_done in H; destruct H as (-> & -> & ->)
  | sys_exit _ _ = (Done _, _, _) => discriminate H
  | (if ?c then _ else _) _ = (Done _, _, _) =>
      let E := fresh "E" in destruct c eqn:E; returned H
  | _ => idtac
  end.

Lemma steps_app (t1 t2 : trace) : steps (t1 +++ t2) = steps t1 +++ steps t2.
Proof. apply filter_app. Qed.

Lemma network_calls_app (t1 t2 : trace) :
  network_calls (t1 +++ t2) = network_calls t1 +++ network_calls t2.
Proof. apply filter_app. Qed.

Section ChatGPTReturns.

Context {W : Type} (P : ChatGPT.provider W) (T : Prompts).

Lemma emits_poll_only (fuel : nat) (thread run : string) :
  emits poll_event (ChatGPT.poll P fuel thread run).
Proof.
  induction fuel as [|fuel IH]; cbn [ChatGPT.poll]; emits_auto.
  - apply emits_time_sleep; reflexivity.
  - exact IH.
Qed.

Lemma poll_steps (fuel : nat) (thread run : string) (w w1 : W)
    (o : outcome unit) (t : trace) :
  ChatGPT.poll P fuel thread run w = (o, w1, t) -> steps t = [].
Proof.
  intros H; apply (filter_none is_step poll_event).
  - intros ev; destruct ev; intros E; try reflexivity; discriminate E.
  - exact (emits_poll_only _ _ _ _ _ _ _ H).
Qed.

(** A run that returned: one run created, one listing. *)
Lemma run_thread_steps (fuel : nat) (assistant thread : string) (w w1 : W)
    (v : string) (t : trace) :
  ChatGPT.run_thread P fuel assistant thread w = (Done v, w1, t) ->
  steps t = [RunsCreate thread assistant; MessagesList thread].
Proof.
  unfold ChatGPT.run_thread; intros H; returned H.
  match goal with
  | Hp : ChatGPT.poll _ _ _ _ _ = _ |- _ =>
      rewrite !steps_app, (poll_steps _ _ _ _ _ _ _ Hp)
  end.
  reflexivity.
Qed.

End ChatGPTReturns.

Section ChatGPTProtocol.

Context {W : Type} (P : ChatGPT.provider W) (T : Prompts).

Ltac run_thread_steps_all :=
  repeat match goal with
         | Hr : ChatGPT.run_thread _ _ _ _ _ = (Done _, _, _) |- _ =>
             apply (run_thread_steps P) in Hr
         end.

Lemma upload_file_steps (file_path : string) (w w1 : W)
    (file : ChatGPT.FileObject) (t : trace) :
  ChatGPT.upload_file P file_path w = (Done file, w1, t) ->
  steps t = [FilesCreate file_path "assistants"].
Proof. unfold ChatGPT.upload_file; intros H; returned H; reflexivity. Qed.

Lemma create_assistant_steps (w w1 : W) (assistant : ChatGPT.Assistant)
    (t : trace) :
  ChatGPT.create_assistant P w = (Done assistant, w1, t) ->
  steps t =
    [ AssistantsCreate "MDT Generator & Evaluator"
        "You are a helpful medical AI assistant capable of analyzing case studies and generating transcripts."
        "gpt-4o" ["file_search"] ].
Proof.
  unfold ChatGPT.create_assistant; cbv zeta; intros H; returned H; reflexivity.
Qed.

Lemma cleanup_steps (file_obj : ChatGPT.FileObject)
    (assistant : ChatGPT.Assistant) (w w1 : W) (u : unit) (t : trace) :
  ChatGPT.cleanup P file_obj assistant w = (Done u, w1, t) ->
  steps t = [ FilesDelete (ChatGPT.file_id file_obj);
              AssistantsDelete (ChatGPT.assistant_id assistant) ].
Proof. unfold ChatGPT.cleanup; intros H; returned H; reflexivity. Qed.

(** The three tasks, when all return: per task one message, one run, one
    listing, in this order; only the first message attaches the file. *)
Lemma tasks_steps (fuel : nat) (file_obj : ChatGPT.FileObject)
    (assistant : ChatGPT.Assistant) (thread : ChatGPT.Thread) (w w1 : W)
    (u : unit) (t : trace) :
  ChatGPT.tasks P T fuel file_obj assistant thread w = (Done u, w1, t) ->
  exists T1 p2 p3,
    format_transcript T (PROMPT_FACTUAL_CORRECTNESS T) T1 = Ok p2 /\
    format_transcript T (PROMPT_PLAUSIBILITY T) T1 = Ok p3 /\
    let tid := ChatGPT.thread_id thread in
    let aid := ChatGPT.assistant_id assistant in
    steps t =
      [ MessagesCreate tid "user" (PROMPT_GENERATE_MDT T) [ChatGPT.file_id file_obj];
        RunsCreate tid aid; MessagesList tid;
        MessagesCreate tid "user" p2 [];
        RunsCreate tid aid; MessagesList tid;
        MessagesCreate tid "user" p3 [];
        RunsCreate tid aid; MessagesList tid ].
Proof.
  unfold ChatGPT.tasks, ChatGPT.task1, ChatGPT.task2, ChatGPT.task3.
  intros H; returned H.
  run_thread_steps_all.
  match goal with
  | F2 : format_transcript T (PROMPT_FACTUAL_CORRECTNESS T) ?T1 = Ok ?p2,
    F3 : format_transcript T (PROMPT_PLAUSIBILITY T) ?T1 = Ok ?p3 |- _ =>
      exists T1, p2, p3; split; [exact F2|]; split; [exact F3|]
  end.
  cbv zeta; rewrite !steps_app.
  repeat match goal with
         | Hs : steps ?x = _ |- _ => rewrite Hs; clear Hs
         end.
  reflexivity.
Qed.

(** X6.  A run of chatgpt.py that completes.  Its network calls other than the
    status fetches are, in this order: the upload, the creation of the
    assistant and of the thread; for each of the three tasks one message
    on the thread, one run and one listing of the messages, the message of
    a task coming after the listing of the task before; the deletion of
    the file and of the assistant.  Only the first message attaches the
    file, and the second and third carry the templates filled with one
    transcript. *)
Theorem chatgpt_completed_run :
  forall (fuel : nat) (argv : list string) (w w' : W) (tr : trace),
    ChatGPT.main P T fuel argv w = (Done tt, w', tr) ->
    exists (file_obj : ChatGPT.FileObject) (assistant : ChatGPT.Assistant)
           (thread : ChatGPT.Thread) (T1 p2 p3 : string),
      format_transcript T (PROMPT_FACTUAL_CORRECTNESS T) T1 = Ok p2 /\
      format_transcript T (PROMPT_PLAUSIBILITY T) T1 = Ok p3 /\
      let fid := ChatGPT.file_id file_obj in
      let tid := ChatGPT.thread_id thread in
      let aid := ChatGPT.assistant_id assistant in
      steps tr =
        [ FilesCreate (nth 1 argv "") "assistants";
          AssistantsCreate "MDT Generator & Evaluator"
            "You are a helpful medical AI assistant capable of analyzing case studies and generating transcripts."
            "gpt-4o" ["file_search"];
          ThreadsCreate;
          MessagesCreate tid "user" (PROMPT_GENERATE_MDT T) [fid];
          RunsCreate tid aid; MessagesList tid;
          MessagesCreate tid "user" p2 [];
          RunsCreate tid aid; MessagesList tid;
          MessagesCreate tid "user" p3 [];
          RunsCreate tid aid; MessagesList tid;
          FilesDelete fid;
          AssistantsDelete aid ].
Proof.
  intros fuel argv w w' tr; unfold ChatGPT.main.
  destruct (List.length argv <? 2)%nat.
  - intros H; apply bind_done in H.
    destruct H as (u & w1 & t1 & t2 & _ & H & _); discriminate H.
  - cbv zeta; intros H.
    apply bind_done in H; destruct H as (file_obj & w1 & t1 & t1' & Hup & H & ->).
    apply bind_done in H; destruct H as (assistant & w2 & t2 & t2' & Has & H & ->).
    apply bind_done in H; destruct H as (u & w3 & t3 & t3' & Hpr & H & ->).
    apply bind_done in H; destruct H as (thread & w4 & t4 & t4' & Hth & H & ->).
    apply try_finally_done in H.
    destruct H as (w5 & t5 & t6 & u' & Hta & Hcl & ->).
    apply upload_file_steps in Hup.
    apply create_assistant_steps in Has.
    apply print_done in Hpr; destruct Hpr as [-> ->].
    apply call_done in Hth; destruct Hth as [_ ->].
    apply tasks_steps in Hta; destruct Hta as (T1 & p2 & p3 & F2 & F3 & Hta).
    apply cleanup_steps in Hcl.
    exists file_obj, assistant, thread, T1, p2, p3.
    split; [exact F2|]; split; [exact F3|].
    cbv zeta in Hta |- *.
    rewrite !steps_app, Hup, Has, Hta, Hcl; reflexivity.
Qed.

End ChatGPTProtocol.

(** * More on the model resolver *)

Lemma by_priority_In (suffixes : list string) (candidates : list Gemini.Model)
    (m : Gemini.Model) :
  Gemini.by_priority suffixes candidates = Some m -> In m candidates.
Proof.
  induction suffixes as [|s0 rest IH]; simpl; [discriminate|].
  destruct (find (fun m' => endswith (Gemini.name m') s0) candidates) as [m'|] eqn:E.
  - intros H; injection H as <-; now apply find_some in E.
  - exact IH.
Qed.

(** With no candidate ending with an earlier suffix, the suffix loop gives
    what the candidate loop gives on this suffix. *)
Lemma by_priority_find (suffixes : list string) (candidates : list Gemini.Model) :
  forall (i : nat) (suf : string),
    nth_error suffixes i = Some suf ->
    (exists m, In m candidates /\ endswith (Gemini.name m) suf = true) ->
    (forall j suf', j < i -> nth_error suffixes j = Some suf' ->
       forall m, In m candidates -> endswith (Gemini.name m) suf' = false) ->
    Gemini.by_priority suffixes candidates =
      find (fun m => endswith (Gemini.name m) suf) candidates.
Proof.
  induction suffixes as [|s0 rest IH]; intros i suf Hi Hex Hearlier.
  - destruct i; discriminate Hi.
  - destruct i as [|i]; simpl in Hi |- *.
    + injection Hi as ->.
      destruct (find_present (fun m => endswith (Gemini.name m) suf) candidates Hex)
        as [y [Hy _]].
      now rewrite Hy.
    + rewrite (find_absent (fun m => endswith (Gemini.name m) s0) candidates).
      * apply (IH i suf Hi Hex).
        intros j suf' Hj Hn; apply (Hearlier (S j) suf'); [lia | exact Hn].
      * intros m Hm; apply (Hearlier 0 s0); [lia | reflexivity | exact Hm].
Qed.

Lemma find_first {A : Type} (f : A -> bool) (before after : list A) (x : A) :
  (forall y, In y before -> f y = false) -> f x = true ->
  find f (before ++ x :: after)%list = Some x.
Proof.
  intros Hb Hx; induction before as [|b before IH]; simpl.
  - now rewrite Hx.
  - rewrite (Hb b (or_introl eq_refl)); apply IH.
    intros y Hy; apply Hb; now right.
Qed.

Section ResolverMore.

Context {W : Type} (P : Gemini.provider W).

(** Whatever happens, the resolver makes one network call: the listing. *)
Lemma pick_available_model_calls (w w1 : W) (o : outcome string) (t : trace) :
  Gemini.pick_available_model P w = (o, w1, t) ->
  network_calls t = [ListModels].
Proof.
  destruct (Gemini.list_models P w) as [[available|e] w2] eqn:Hl.
  - rewrite (pick_available_model_listed P w w2 available Hl); cbv zeta.
    destruct (Gemini.by_priority _ _) as [m|].
    + intros H; injection H as _ _ <-; reflexivity.
    + destruct (filter Gemini.capable available) as [|m rest];
        intros H; injection H as _ _ <-; reflexivity.
  - unfold Gemini.pick_available_model.
    unfold bind at 1, try_except, bind at 1, call; rewrite Hl.
    destruct (is_Exception e); intros H; injection H as _ _ <-; reflexivity.
Qed.

(** X7.  The resolver makes exactly one network call, never raises an instance
    of [Exception], and returns either "gemini-1.5-flash-8b" or the name of
    a listed model that supports generateContent. *)
Theorem pick_available_model_outcomes :
  forall (w w1 : W) (o : outcome string) (t : trace),
    Gemini.pick_available_model P w = (o, w1, t) ->
    network_calls t = [ListModels] /\
    ((exists model_name,
        o = Done model_name /\
        (model_name = "gemini-1.5-flash-8b" \/
         exists available m,
           Gemini.list_models P w = (Ok available, w1) /\
           In m available /\
           Gemini.capable m = true /\
           Gemini.name m = model_name)) \/
     (exists e,
        o = Raised e /\ is_Exception e = false /\
        Gemini.list_models P w = (Err e, w1))).
Proof.
  intros w w1 o t H; split; [exact (pick_available_model_calls _ _ _ _ H)|].
  revert H.
  destruct (Gemini.list_models P w) as [[available|e] w2] eqn:Hl.
  - rewrite (pick_available_model_listed P w w2 available Hl); cbv zeta.
    destruct (Gemini.by_priority _ _) as [m|] eqn:Eb.
    + intros H; injection H as <- <- _; left; eexists; split; [reflexivity|].
      right; exists available, m.
      apply by_priority_In, filter_In in Eb; destruct Eb as [Hin Hcap].
      now repeat split.
    + destruct (filter Gemini.capable available) as [|m rest] eqn:Ef;
        intros H; injection H as <- <- _; left; eexists; (split; [reflexivity|]).
      * now left.
      * right; exists available, m.
        assert (Hm : In m (filter Gemini.capable available))
          by (rewrite Ef; now left).
        apply filter_In in Hm; destruct Hm as [Hin Hcap].
        now repeat split.
  - unfold Gemini.pick_available_model.
    unfold bind at 1, try_except, bind at 1, call; rewrite Hl.
    destruct (is_Exception e) eqn:He; intros H; injection H as <- <- _.
    + left; eexists; split; [reflexivity | now left].
    + right; exists e; now repeat split.
Qed.

(** X8.  Among the candidates ending with the winning suffix, the resolver
    returns the first in provider order. *)
Theorem pick_available_model_first_in_order :
  forall (w w1 : W) (available before after : list Gemini.Model)
         (m : Gemini.Model) (i : nat) (suf : string),
    Gemini.list_models P w = (Ok available, w1) ->
    filter Gemini.capable available = (before ++ m :: after)%list ->
    nth_error Gemini.priority_suffixes i = Some suf ->
    endswith (Gemini.name m) suf = true ->
    (forall m', In m' before -> endswith (Gemini.name m') suf = false) ->
    (forall j suf', j < i ->
       nth_error Gemini.priority_suffixes j = Some suf' ->
       forall m', In m' (filter Gemini.capable available) ->
         endswith (Gemini.name m') suf' = false) ->
    Gemini.pick_available_model P w =
      (Done (Gemini.name m), w1,
       [ListModels; Print ("Using Gemini model: " ++ Gemini.name m)]).
Proof.
  intros w w1 available before after m i suf Hl Hc Hi Hm Hb Hearlier.
  rewrite (pick_available_model_listed P w w1 available Hl); cbv zeta.
  rewrite (by_priority_find _ _ i suf Hi).
  - rewrite Hc, (find_first _ before after m Hb Hm); reflexivity.
  - exists m; split; [rewrite Hc; apply in_elt | exact Hm].
  - exact Hearlier.
Qed.

End ResolverMore.

Lemma pick_available_model_outcomes_witness :
  let P := Demo.gemini true (Ok None) None
             (Ok [ Demo.model "models/embedding-001" ["embedContent"];
                   Demo.model "models/gemini-pro-vision" ["generateContent"] ])
             Demo.numbered_replies in
  let run := Gemini.pick_available_model P 0 in
  fst (fst run) = Done "models/gemini-pro-vision" /\
  network_calls (snd run) = [ListModels].
Proof.
  intros P run.
  assert (E : run = (fst (fst run), snd (fst run), snd run))
    by (destruct run as [[o w] t]; reflexivity).
  split; [reflexivity|].
  exact (proj1 (pick_available_model_outcomes P 0 _ _ _ E)).
Defined.

(** Two candidates end with the preferred suffix; a model that cannot
    generate content stands before them. *)
Lemma pick_available_model_first_in_order_witness :
  let models :=
    [ Demo.model "tunedModels/x-gemini-2.0-flash" ["embedContent"];
      Demo.model "models/gemini-1.5-pro" ["generateContent"];
      Demo.model "models/gemini-2.0-flash" ["generateContent"];
      Demo.model "publishers/google/gemini-2.0-flash" ["generateContent"] ] in
  let P := Demo.gemini true (Ok None) None (Ok models) Demo.numbered_replies in
  Gemini.pick_available_model P 0 =
    (Done "models/gemini-2.0-flash", 0,
     [ListModels; Print "Using Gemini model: models/gemini-2.0-flash"]).
Proof.
  intros models P.
  apply (pick_available_model_first_in_order P 0 0 models
           [Demo.model "models/gemini-1.5-pro" ["generateContent"]]
           [Demo.model "publishers/google/gemini-2.0-flash" ["generateContent"]]
           (Demo.model "models/gemini-2.0-flash" ["generateContent"])
           0 "gemini-2.0-flash").
  - reflexivity.
  - reflexivity.
  - reflexivity.
  - reflexivity.
  - intros m' [<-|[]]; reflexivity.
  - intros j suf' Hj; lia.
Defined.

(** * More on gemini.py *)

Section GeminiReturns.

Context {W : Type} (P : Gemini.provider W) (T : Prompts).

(** X9.  [get_model_response] with an explicit model name makes one network
    call, the generation with that name: the models are not listed.  With
    no name, or with the empty string, it lists the models first. *)
Theorem get_model_response_model_name :
  forall (prompt : string) (file_obj : Gemini.File) (model_name : option string)
         (w w1 : W) (o : outcome string) (t : trace),
    Gemini.get_model_response P prompt file_obj model_name w = (o, w1, t) ->
    (forall name, model_name = Some name -> name <> "" ->
       network_calls t =
         [GenerateContent name prompt (Some (Gemini.file_name file_obj))]) /\
    (model_name = None \/ model_name = Some "" ->
       exists rest, network_calls t = ListModels :: rest).
Proof.
  intros prompt file_obj model_name w w1 o t H; split.
  - intros name -> Hne; revert H.
    assert (Ht : truthy (Some name) = true).
    { simpl; destruct (name =? "") eqn:E; [|reflexivity].
      apply String.eqb_eq in E; now elim Hne. }
    unfold Gemini.get_model_response; rewrite Ht.
    unfold bind at 1, print at 1; unfold bind at 1, ret at 1.
    unfold bind at 1, call at 1.
    destruct (Gemini.generate_content P name prompt _ w) as [[r|e] w2].
    + unfold bind, print, lift; destruct (Gemini.text r);
        intros H; injection H as _ _ <-; reflexivity.
    + intros H; injection H as _ _ <-; reflexivity.
  - intros Hm; revert H.
    assert (Ht : truthy model_name = false) by (destruct Hm as [->| ->]; reflexivity).
    unfold Gemini.get_model_response; rewrite Ht.
    unfold bind at 1, print at 1; unfold bind at 1.
    destruct (Gemini.pick_available_model P w) as [[om wm] tm] eqn:Em.
    apply pick_available_model_calls in Em.
    destruct om as [m|e|].
    + destruct (bind _ _ wm) as [[o2 w2] t2].
      intros H; injection H as _ _ <-.
      exists (network_calls t2).
      change (network_calls (tm +++ t2) = ListModels :: network_calls t2).
      rewrite network_calls_app, Em; reflexivity.
    + intros H; injection H as _ _ <-; exists []; exact Em.
    + intros H; injection H as _ _ <-; exists []; exact Em.
Qed.

(** X10.  A response whose text cannot be read: "Response received." is
    printed first, then the error of reading the text propagates.  This
    holds with a model name given, and with none (as [main] calls it),
    where the model is the one the resolver returns and the resolver's
    calls and prints come before the generation. *)
Theorem get_model_response_no_text :
  forall (prompt : string) (file_obj : Gemini.File)
         (model_name : option string) (m : string) (w wm w1 : W) (tm : trace)
         (response : Gemini.Response) (e : exn),
    (model_name = Some m /\ m <> "" /\ wm = w /\ tm = []) \/
    ((model_name = None \/ model_name = Some "") /\
     Gemini.pick_available_model P w = (Done m, wm, tm)) ->
    Gemini.generate_content P m prompt (Some (Gemini.file_name file_obj)) wm =
      (Ok response, w1) ->
    Gemini.text response = Err e ->
    Gemini.get_model_response P prompt file_obj model_name w =
      (Raised e, w1,
       Print "Generating response from Gemini..." ::
       tm +++
       [ GenerateContent m prompt (Some (Gemini.file_name file_obj));
         Print "Response received." ]).
Proof.
  intros prompt file_obj model_name m w wm w1 tm response e Hm Hg Ht.
  unfold Gemini.get_model_response.
  destruct Hm as [[-> [Hne [-> ->]]] | [Hnone Hp]].
  - assert (Htr : truthy (Some m) = true).
    { simpl; destruct (m =? "") eqn:E; [|reflexivity].
      apply String.eqb_eq in E; now elim Hne. }
    rewrite Htr.
    unfold bind, print, ret, call, lift; rewrite Hg, Ht; reflexivity.
  - assert (Htr : truthy model_name = false)
      by (destruct Hnone as [-> | ->]; reflexivity).
    rewrite Htr.
    unfold bind at 1, print at 1; unfold bind at 1; rewrite Hp.
    unfold bind, print, call, lift; rewrite Hg, Ht.
    cbn [app]; rewrite ?app_nil_r; reflexivity.
Qed.

Lemma gemini_upload_file_calls (file_path : string) (w w1 : W)
    (file : Gemini.File) (t : trace) :
  Gemini.upload_file P file_path w = (Done file, w1, t) ->
  exists mime, network_calls t = [UploadFile file_path mime].
Proof.
  unfold Gemini.upload_file; intros H; returned H; eexists; reflexivity.
Qed.

Lemma get_model_response_calls (prompt : string) (file_obj : Gemini.File)
    (w w1 : W) (v : string) (t : trace) :
  Gemini.get_model_response P prompt file_obj None w = (Done v, w1, t) ->
  exists m,
    network_calls t =
      [ListModels; GenerateContent m prompt (Some (Gemini.file_name file_obj))].
Proof.
  unfold Gemini.get_model_response; cbn [truthy]; intros H; returned H.
  match goal with
  | Hp : Gemini.pick_available_model _ _ = (Done ?m, _, _) |- _ =>
      apply pick_available_model_calls in Hp; exists m;
      rewrite !network_calls_app, Hp
  end.
  reflexivity.
Qed.

Lemma gemini_tasks_calls (file_obj : Gemini.File) (w w1 : W) (u : unit)
    (t : trace) :
  Gemini.tasks P T file_obj w = (Done u, w1, t) ->
  exists T1 p2 p3 m1 m2 m3,
    format_transcript T (PROMPT_FACTUAL_CORRECTNESS T) T1 = Ok p2 /\
    format_transcript T (PROMPT_PLAUSIBILITY T) T1 = Ok p3 /\
    let attached := Some (Gemini.file_name file_obj) in
    network_calls t =
      [ ListModels; GenerateContent m1 (PROMPT_GENERATE_MDT T) attached;
        ListModels; GenerateContent m2 p2 attached;
        ListModels; GenerateContent m3 p3 None ].
Proof.
  unfold Gemini.tasks, Gemini.task1, Gemini.task2, Gemini.task3.
  intros H; returned H.
  repeat match goal with
         | Hg : Gemini.get_model_response _ _ _ None _ = (Done _, _, _) |- _ =>
             apply get_model_response_calls in Hg; destruct Hg as [? Hg]
         | Hp : Gemini.pick_available_model _ _ = (Done _, _, _) |- _ =>
             apply pick_available_model_calls in Hp
         end.
  match goal with
  | F2 : format_transcript T (PROMPT_FACTUAL_CORRECTNESS T) ?T1 = Ok ?p2,
    F3 : format_transcript T (PROMPT_PLAUSIBILITY T) ?T1 = Ok ?p3 |- _ =>
      exists T1, p2, p3
  end.
  do 3 eexists.
  split; [eassumption|]; split; [eassumption|].
  cbv zeta; rewrite !network_calls_app.
  repeat match goal with
         | Hs : network_calls ?x = _ |- _ => rewrite Hs; clear Hs
         end.
  reflexivity.
Qed.

Lemma gemini_cleanup_calls (file_obj : Gemini.File) (w w1 : W) (u : unit)
    (t : trace) :
  Gemini.cleanup P file_obj w = (Done u, w1, t) ->
  network_calls t = [DeleteFile (Gemini.file_name file_obj)].
Proof. unfold Gemini.cleanup; intros H; returned H; reflexivity. Qed.

(** X11.  A run of gemini.py that completes.  Its network calls are, in this
    order: the upload; for each of the three tasks a listing of the models
    and one generation (the model is resolved again for every call); the
    deletion of the file.  The first two generations attach the uploaded
    file, the third does not; the second and third prompts are the
    templates filled with one transcript. *)
Theorem gemini_completed_run :
  forall (argv : list string) (w w' : W) (tr : trace),
    Gemini.main P T argv w = (Done tt, w', tr) ->
    exists (file_obj : Gemini.File) (mime T1 p2 p3 m1 m2 m3 : string),
      format_transcript T (PROMPT_FACTUAL_CORRECTNESS T) T1 = Ok p2 /\
      format_transcript T (PROMPT_PLAUSIBILITY T) T1 = Ok p3 /\
      let attached := Some (Gemini.file_name file_obj) in
      network_calls tr =
        [ UploadFile (nth 1 argv "") mime;
          ListModels; GenerateContent m1 (PROMPT_GENERATE_MDT T) attached;
          ListModels; GenerateContent m2 p2 attached;
          ListModels; GenerateContent m3 p3 None;
          DeleteFile (Gemini.file_name file_obj) ].
Proof.
  intros argv w w' tr; unfold Gemini.main.
  destruct (List.length argv <? 2)%nat.
  - intros H; apply bind_done in H.
    destruct H as (u & w1 & t1 & t2 & _ & H & _); discriminate H.
  - cbv zeta; intros H.
    apply bind_done in H; destruct H as (file_obj & w1 & t1 & t1' & Hup & H & ->).
    apply try_finally_done in H.
    destruct H as (w5 & t5 & t6 & u' & Hta & Hcl & ->).
    apply gemini_upload_file_calls in Hup; destruct Hup as [mime Hup].
    apply gemini_tasks_calls in Hta.
    destruct Hta as (T1 & p2 & p3 & m1 & m2 & m3 & F2 & F3 & Hta).
    apply gemini_cleanup_calls in Hcl.
    exists file_obj, mime, T1, p2, p3, m1, m2, m3.
    split; [exact F2|]; split; [exact F3|].
    cbv zeta in Hta |- *.
    rewrite !network_calls_app, Hup, Hta, Hcl; reflexivity.
Qed.

End GeminiReturns.

Lemma chatgpt_completed_run_witness :
  let P := Demo.openai true (Ok Demo.asst) Demo.four_statuses
             Demo.numbered_answers (Ok tt) in
  let run := ChatGPT.main P Demo.prompts 4 ["chatgpt.py"; "case.pdf"] (0, 0) in
  fst (fst run) = Done tt /\
  List.length (steps (snd run)) = 14 /\
  fetches (snd run) = 12.
Proof.
  intros P run.
  assert (E : run = (Done tt, snd (fst run), snd run)) by reflexivity.
  split; [reflexivity|]; split; [|reflexivity].
  destruct (chatgpt_completed_run P Demo.prompts 4 _ _ _ _ E)
    as (file_obj & assistant & thread & T1 & p2 & p3 & _ & _ & Hs).
  cbv zeta in Hs; rewrite Hs; reflexivity.
Defined.

Lemma gemini_completed_run_witness :
  let P := Demo.gemini true (Ok (Some "application/pdf")) None
             (Ok [Demo.model "models/gemini-1.5-pro" ["generateContent"]])
             Demo.numbered_replies in
  let run := Gemini.main P Demo.prompts ["gemini.py"; "case.pdf"] 0 in
  fst (fst run) = Done tt /\
  List.length (network_calls (snd run)) = 8.
Proof.
  intros P run.
  assert (E : run = (Done tt, snd (fst run), snd run)) by reflexivity.
  split; [reflexivity|].
  destruct (gemini_completed_run P Demo.prompts _ _ _ _ E)
    as (file_obj & mime & T1 & p2 & p3 & m1 & m2 & m3 & _ & _ & Hs).
  cbv zeta in Hs; rewrite Hs; reflexivity.
Defined.

(** An explicit model name: the models are not listed. *)
Lemma get_model_response_model_name_witness :
  let P := Demo.gemini true (Ok None) None (Ok []) Demo.numbered_replies in
  let run := Gemini.get_model_response P "Generate:"
               {| Gemini.file_name := "files/1" |} (Some "gemini-1.5-pro") 0 in
  fst (fst run) = Done "T1" /\
  network_calls (snd run) =
    [GenerateContent "gemini-1.5-pro" "Generate:" (Some "files/1")].
Proof.
  intros P run.
  assert (E : run = (fst (fst run), snd (fst run), snd run))
    by (destruct run as [[o w] t]; reflexivity).
  split; [reflexivity|].
  apply (proj1 (get_model_response_model_name P "Generate:"
                  {| Gemini.file_name := "files/1" |} (Some "gemini-1.5-pro")
                  0 _ _ _ E)
           "gemini-1.5-pro" eq_refl).
  discriminate.
Defined.

(** A response blocked by the provider: reading its text raises. *)
Lemma get_model_response_no_text_witness :
  let P := Faults.gemini (fun _ => Err (PyError "ValueError" "response.text requires a valid Part")) in
  Gemini.get_model_response P "Generate:" {| Gemini.file_name := "files/1" |}
    None 0 =
    (Raised (PyError "ValueError" "response.text requires a valid Part"), 1,
     [ Print "Generating response from Gemini...";
       ListModels;
       Print "Using Gemini model: models/gemini-1.5-pro";
       GenerateContent "models/gemini-1.5-pro" "Generate:" (Some "files/1");
       Print "Response received." ]).
Proof.
  intros P.
  apply (get_model_response_no_text P "Generate:"
           {| Gemini.file_name := "files/1" |} None "models/gemini-1.5-pro"
           0 0 1 [ListModels; Print "Using Gemini model: models/gemini-1.5-pro"]
           {| Gemini.text := Err (PyError "ValueError" "response.text requires a valid Part") |}).
  - right; split; [now left | reflexivity].
  - reflexivity.
  - reflexivity.
Defined.

(** * Before the guarded block *)

(** X12.  With no path on the command line both scripts print their usage line
    and exit with code 1; nothing else happens. *)
Theorem main_usage :
  (forall (W : Type) (P : ChatGPT.provider W) (T : Prompts) (fuel : nat)
          (argv : list string) (w : W),
     List.length argv < 2 ->
     ChatGPT.main P T fuel argv w =
       (Raised (SystemExit 1), w,
        [Print "Usage: python src/chatgpt.py <path_to_pdf>"])) /\
  (forall (W : Type) (P : Gemini.provider W) (T : Prompts)
          (argv : list string) (w : W),
     List.length argv < 2 ->
     Gemini.main P T argv w =
       (Raised (SystemExit 1), w,
        [Print "Usage: python src/gemini.py <path_to_pdf>"])).
Proof.
  split; intros W P T.
  - intros fuel argv w Hlen; unfold ChatGPT.main.
    replace (List.length argv <? 2)%nat with true
      by (symmetry; apply Nat.ltb_lt; exact Hlen).
    reflexivity.
  - intros argv w Hlen; unfold Gemini.main.
    replace (List.length argv <? 2)%nat with true
      by (symmetry; apply Nat.ltb_lt; exact Hlen).
    reflexivity.
Qed.

Lemma main_usage_witness :
  ChatGPT.main
    (Demo.openai true (Ok Demo.asst) Demo.four_statuses Demo.numbered_answers (Ok tt))
    Demo.prompts 4 ["chatgpt.py"] (0, 0) =
    (Raised (SystemExit 1), (0, 0),
     [Print "Usage: python src/chatgpt.py <path_to_pdf>"]).
Proof.
  apply (proj1 main_usage); simpl; lia.
Defined.

Section ChatGPTSetup.

Context {W : Type} (P : ChatGPT.provider W) (T : Prompts).

(** X13.  The uploader of chatgpt.py on a path that exists.  When opening the
    file raises, the error propagates before any network call; when the
    upload raises, the error propagates after that one call; otherwise
    the file object the provider answered is returned. *)
Theorem chatgpt_upload_file_outcomes :
  forall (file_path : string) (w : W),
    ChatGPT.path_exists P file_path w = true ->
    let uploading := Print ("Uploading file: " ++ file_path ++ "...") in
    let create := FilesCreate file_path "assistants" in
    (forall e,
       ChatGPT.open_rb P file_path w = Err e ->
       ChatGPT.upload_file P file_path w = (Raised e, w, [uploading])) /\
    (forall e w1,
       ChatGPT.open_rb P file_path w = Ok tt ->
       ChatGPT.files_create P file_path "assistants" w = (Err e, w1) ->
       ChatGPT.upload_file P file_path w = (Raised e, w1, [uploading; create])) /\
    (forall file w1,
       ChatGPT.open_rb P file_path w = Ok tt ->
       ChatGPT.files_create P file_path "assistants" w = (Ok file, w1) ->
       ChatGPT.upload_file P file_path w =
         (Done file, w1,
          [ uploading; create;
            Print ("File uploaded. ID: " ++ ChatGPT.file_id file) ])).
Proof.
  intros file_path w He uploading create.
  assert (Hu : ChatGPT.upload_file P file_path w =
               (print ("Uploading file: " ++ file_path ++ "...") ;;
                query (ChatGPT.open_rb P file_path) ;;
                file <- call (FilesCreate file_path "assistants")
                             (ChatGPT.files_create P file_path "assistants") ;;
                print ("File uploaded. ID: " ++ ChatGPT.file_id file) ;;
                ret file) w).
  { unfold ChatGPT.upload_file, bind at 1, read at 1; rewrite He; cbn [negb].
    destruct (bind _ _ w) as [[o1 w1] t1]; reflexivity. }
  rewrite Hu; clear Hu.
  cbv beta iota delta [bind print query].
  split; [|split].
  - intros e Ho; rewrite Ho; reflexivity.
  - intros e w1 Ho Hc; rewrite Ho.
    cbv beta iota delta [call]; rewrite Hc; reflexivity.
  - intros file w1 Ho Hc; rewrite Ho.
    cbv beta iota delta [call]; rewrite Hc; reflexivity.
Qed.

(** X14.  A failure of the set-up of chatgpt.py ends the run with that error and
    nothing is released: a failed upload, a failed creation of the
    assistant (the uploaded file stays), a failed creation of the thread
    (the uploaded file and the assistant stay). *)
Theorem chatgpt_setup_failure :
  forall (fuel : nat) (argv : list string) (w : W),
    2 <= List.length argv ->
    (forall e w1 t1,
       ChatGPT.upload_file P (nth 1 argv "") w = (Raised e, w1, t1) ->
       ChatGPT.main P T fuel argv w = (Raised e, w1, t1) /\ releases t1 = []) /\
    (forall file_obj e w1 w2 t1 t2,
       ChatGPT.upload_file P (nth 1 argv "") w = (Done file_obj, w1, t1) ->
       ChatGPT.create_assistant P w1 = (Raised e, w2, t2) ->
       ChatGPT.main P T fuel argv w = (Raised e, w2, t1 +++ t2) /\
       releases (t1 +++ t2) = []) /\
    (forall file_obj assistant e w1 w2 w3 t1 t2,
       ChatGPT.upload_file P (nth 1 argv "") w = (Done file_obj, w1, t1) ->
       ChatGPT.create_assistant P w1 = (Done assistant, w2, t2) ->
       ChatGPT.threads_create P w2 = (Err e, w3) ->
       let t := t1 +++ t2 +++ [Print "Creating Thread..."; ThreadsCreate] in
       ChatGPT.main P T fuel argv w = (Raised e, w3, t) /\
       releases t = []).
Proof.
  intros fuel argv w Hlen.
  assert (Hmain : ChatGPT.main P T fuel argv w =
                  (let pdf_path := nth 1 argv "" in
                   file_obj <- ChatGPT.upload_file P pdf_path ;;
                   assistant <- ChatGPT.create_assistant P ;;
                   print "Creating Thread..." ;;
                   thread <- call ThreadsCreate (ChatGPT.threads_create P) ;;
                   try_finally (ChatGPT.tasks P T fuel file_obj assistant thread)
                               (ChatGPT.cleanup P file_obj assistant)) w).
  { unfold ChatGPT.main.
    replace (List.length argv <? 2)%nat with false
      by (symmetry; apply Nat.ltb_ge; exact Hlen).
    reflexivity. }
  rewrite Hmain; cbv zeta; clear Hmain.
  split; [|split].
  - intros e w1 t1 Hup; split.
    + unfold bind at 1; rewrite Hup; reflexivity.
    + apply releases_none; exact (emits_upload_file P _ _ _ _ _ Hup).
  - intros file_obj e w1 w2 t1 t2 Hup Has; split.
    + unfold bind at 1; rewrite Hup.
      unfold bind at 1; rewrite Has; reflexivity.
    + rewrite releases_app.
      rewrite (releases_none t1 (emits_upload_file P _ _ _ _ _ Hup)).
      exact (releases_none t2 (emits_create_assistant P _ _ _ _ Has)).
  - intros file_obj assistant e w1 w2 w3 t1 t2 Hup Has Hth; split.
    + unfold bind at 1; rewrite Hup.
      unfold bind at 1; rewrite Has.
      unfold bind at 1, print at 1.
      unfold bind at 1, call at 1; rewrite Hth; reflexivity.
    + rewrite !releases_app.
      rewrite (releases_none t1 (emits_upload_file P _ _ _ _ _ Hup)).
      rewrite (releases_none t2 (emits_create_assistant P _ _ _ _ Has)).
      reflexivity.
Qed.

End ChatGPTSetup.

Lemma chatgpt_upload_file_outcomes_witness :
  let P := Demo.openai true (Ok Demo.asst) Demo.four_statuses
             Demo.numbered_answers (Ok tt) in
  ChatGPT.upload_file P "case.pdf" (0, 0) =
    (Done {| ChatGPT.file_id := "file-1" |}, (0, 0),
     [ Print "Uploading file: case.pdf...";
       FilesCreate "case.pdf" "assistants";
       Print "File uploaded. ID: file-1" ]).
Proof.
  intros P.
  apply (proj2 (proj2 (chatgpt_upload_file_outcomes P "case.pdf" (0, 0) eq_refl))
           {| ChatGPT.file_id := "file-1" |} (0, 0));
    reflexivity.
Defined.

(** Creating the assistant raises after the upload. *)
Lemma chatgpt_setup_failure_witness :
  let P := Demo.openai true (Err (PyError "APIError" "500"))
             Demo.four_statuses Demo.numbered_answers (Ok tt) in
  let run := ChatGPT.main P Demo.prompts 4 ["chatgpt.py"; "case.pdf"] (0, 0) in
  fst (fst run) = Raised (PyError "APIError" "500") /\
  releases (snd run) = [].
Proof.
  intros P run.
  destruct (proj1 (proj2 (chatgpt_setup_failure P Demo.prompts 4
                            ["chatgpt.py"; "case.pdf"] (0, 0) (le_n 2)))
              {| ChatGPT.file_id := "file-1" |} (PyError "APIError" "500")
              (0, 0) (0, 0) _ _ eq_refl eq_refl) as [Hmain Hrel].
  unfold run; rewrite Hmain; split; [reflexivity | exact Hrel].
Defined.

(** X15.  When the upload of gemini.py does not succeed, the run ends with the
    error of the upload: no prompt is submitted and nothing is deleted. *)
Theorem gemini_upload_failure :
  forall (W : Type) (P : Gemini.provider W) (T : Prompts) (argv : list string)
         (w w1 : W) (e : exn) (t1 : trace),
    2 <= List.length argv ->
    Gemini.upload_file P (nth 1 argv "") w = (Raised e, w1, t1) ->
    Gemini.main P T argv w = (Raised e, w1, t1) /\
    releases t1 = [] /\
    prompts_sent t1 = [].
Proof.
  intros W P T argv w w1 e t1 Hlen Hup; split; [|split].
  - unfold Gemini.main.
    replace (List.length argv <? 2)%nat with false
      by (symmetry; apply Nat.ltb_ge; exact Hlen).
    cbv zeta; unfold bind at 1; rewrite Hup; reflexivity.
  - apply releases_none; exact (emits_gemini_upload_file P _ _ _ _ _ Hup).
  - apply prompts_sent_none.
    assert (E : emits no_prompt (Gemini.upload_file P (nth 1 argv "")))
      by (unfold Gemini.upload_file; emits_auto).
    exact (E _ _ _ _ Hup).
Qed.

(** The provider refuses the upload. *)
Lemma gemini_upload_failure_witness :
  let P := {|
    Gemini.path_exists := fun _ (_ : nat) => true;
    Gemini.magic_from_file := fun _ _ => Ok (Some "application/pdf");
    Gemini.guess_type := fun _ _ => None;
    Gemini.list_models := fun w => (Ok [], w);
    Gemini.genai_upload_file := fun _ _ w => (Err (PyError "PermissionDenied" "403"), w);
    Gemini.generate_content := fun _ _ _ w => (Ok {| Gemini.text := Ok "" |}, w);
    Gemini.delete_file := fun _ w => (Ok tt, w)
  |} in
  Gemini.main P Demo.prompts ["gemini.py"; "case.pdf"] 0 =
    (Raised (PyError "PermissionDenied" "403"), 0,
     [ Print "Uploading file: case.pdf...";
       UploadFile "case.pdf" "application/pdf" ]).
Proof.
  intros P.
  apply (gemini_upload_failure nat P Demo.prompts ["gemini.py"; "case.pdf"] 0 0).
  - simpl; lia.
  - reflexivity.
Defined.
